(** * SynAuth client SDK: a shallow embedding and its verified properties

    The development follows [src/synauth/client.py] and [src/synauth/pay.py].
    The client is sequential code that talks to a remote backend and reads
    the wall clock, so the embedding threads an explicit [world] (the clock
    and the log of HTTP requests issued so far) through a small
    state-and-exception monad.  The backend is an oracle [env]: it decides
    the reply to the n-th HTTP request and how long that request takes. *)

From Stdlib Require Import QArith Lqa Ascii.
From stdpp Require Import gmap strings list fin_maps sorting.

Set Warnings "-register-all".
Set Default Proof Using "Type".

Local Open Scope string_scope.
Local Open Scope Z_scope.

(** ** JSON values and the Python operations the client applies to them *)

Inductive json : Type :=
  | JNull
  | JBool (b : bool)
  | JNum (q : Q)
  | JStr (s : string)
  | JArr (l : list json)
  | JObj (m : gmap string json).

(** Exceptions that can leave the client.  The first five are the SDK's own
    classes; the others are the Python built-ins that the code can let
    escape ([ValueError] also stands for a body that is not JSON on a
    successful response and for a negative sleep length). *)
Inductive vault_detail : Type :=
  | UnexpectedStatus (status request_id : json).

Inductive exn : Type :=
  | SynAuthAPIError (status_code : Z) (detail : json)
  | RateLimitError (detail : json)
  | ActionExpiredError (request_id : json)
  | ActionDeniedError (request_id reason : json)
  | VaultExecutionError (detail : vault_detail)
  | KeyError (key : string)
  | AttributeError
  | TypeError
  | ValueError
  | RequestException.

(** [RateLimitError] derives from [SynAuthAPIError] and fixes the status
    code to 429 in its constructor. *)
Definition is_api_error (e : exn) : bool :=
  match e with
  | SynAuthAPIError _ _ | RateLimitError _ => true
  | _ => false
  end.

Definition api_status_code (e : exn) : option Z :=
  match e with
  | SynAuthAPIError c _ => Some c
  | RateLimitError _ => Some 429
  | _ => None
  end.

Definition is_rate_limit (e : exn) : bool :=
  match e with RateLimitError _ => true | _ => false end.

(** ** The world, the backend oracle and the monad *)

(** Paths of the backend API; the identifier interpolated into a path is
    kept as the JSON value it came from. *)
Inductive endpoint : Type :=
  | Actions
  | Action (request_id : json)
  | VaultExecute (request_id : json).

Record request : Type := mkRequest {
  method : string;
  path : endpoint;
  body : option (gmap string json)
}.

(** What [requests] hands back: the status code, the raw text, and the
    result of [resp.json()] ([None] when the text is not JSON). *)
Record response : Type := mkResponse {
  status_code : Z;
  text : string;
  parsed : option json
}.

Inductive reply : Type :=
  | Resp (r : response)
  | NetFail.

(** The clock is in seconds.  [sent] lists the requests issued so far,
    newest first, each with the time at which it was issued. *)
Record world : Type := mkWorld {
  now : Q;
  sent : list (Q * request)
}.

Record env : Type := mkEnv {
  respond : nat -> request -> reply;
  latency : nat -> Q
}.

Definition calls (w : world) : nat := length (sent w).

Inductive outcome (A : Type) : Type :=
  | Ret (a : A)
  | Raise (e : exn)
  | Diverge.
Arguments Ret {A} a.
Arguments Raise {A} e.
Arguments Diverge {A}.

Definition M (A : Type) : Type := world -> outcome A * world.

Definition ret {A} (a : A) : M A := fun w => (Ret a, w).
Definition raise {A} (e : exn) : M A := fun w => (Raise e, w).
Definition diverge {A} : M A := fun w => (Diverge, w).
Definition bind {A B} (m : M A) (k : A -> M B) : M B :=
  fun w =>
    match m w with
    | (Ret a, w') => k a w'
    | (Raise e, w') => (Raise e, w')
    | (Diverge, w') => (Diverge, w')
    end.

Notation "x <- m ;; k" := (bind m (fun x => k))
  (at level 100, m at next level, right associativity).
Notation "m ;;; k" := (bind m (fun _ => k))
  (at level 100, right associativity).

(** [time.time()] and [time.sleep(d)]. *)
Definition time_time : M Q := fun w => (Ret (now w), w).

Definition time_sleep (d : Q) : M unit :=
  fun w =>
    if Qlt_le_dec d 0 then (Raise ValueError, w)
    else (Ret tt, {| now := (now w + d)%Q; sent := sent w |}).

(** Python's [d.get(k)], [d[k]], truthiness and [==] against a string. *)
Definition py_get (d : json) (k : string) : M json :=
  match d with
  | JObj m => ret (default JNull (m !! k))
  | _ => raise AttributeError
  end.

Definition py_index (d : json) (k : string) : M json :=
  match d with
  | JObj m =>
      match m !! k with
      | Some v => ret v
      | None => raise (KeyError k)
      end
  | _ => raise TypeError
  end.

Definition is_str (j : json) (s : string) : bool :=
  match j with
  | JStr s' => String.eqb s' s
  | _ => false
  end.

Definition truthy_str (o : option string) : bool :=
  match o with
  | Some s => negb (String.eqb s "")
  | None => false
  end.

Definition truthy_dict (o : option (gmap string json)) : bool :=
  match o with
  | Some m => negb (bool_decide (m = ∅))
  | None => false
  end.

Definition opt_str (o : option string) : json :=
  match o with
  | Some s => JStr s
  | None => JNull
  end.

(** ** [SynAuthClient] *)

Module SynAuthClient.
Section Client.

Variable E : env.

(** One call of [self.session.request(method, url, timeout=30, **kwargs)]:
    the call is logged with its issue time, the clock moves by the time
    the call takes, and the [Response] it hands back is the reply (or the
    transport fails).  The log counts the calls the client makes; a
    redirect that [requests] follows on its own is part of one call, whose
    reply is then the last response. *)
Definition session_request (rq : request) : M response :=
  fun w =>
    let n := calls w in
    let w' := {| now := (now w + latency E n)%Q;
                 sent := (now w, rq) :: sent w |} in
    match respond E n rq with
    | Resp r => (Ret r, w')
    | NetFail => (Raise RequestException, w')
    end.

(** [requests.Response.ok]: false exactly for the codes on which
    [raise_for_status] raises, 400 to 599. *)
Definition ok (r : response) : bool :=
  negb ((400 <=? status_code r) && (status_code r <? 600)).

(** client.py, lines 107-125. *)
Definition _request (meth : string) (p : endpoint)
    (payload : option (gmap string json)) : M json :=
  resp <- session_request (mkRequest meth p payload) ;;
  if status_code resp =? 429 then
    raise (RateLimitError (JStr "Rate limit exceeded"))
  else if negb (ok resp) then
    match parsed resp with
    | Some (JObj o) =>
        raise (SynAuthAPIError (status_code resp)
                 (default (JStr (text resp)) (o !! "detail")))
    | Some _ => raise AttributeError
    | None => raise (SynAuthAPIError (status_code resp) (JStr (text resp)))
    end
  else
    match parsed resp with
    | Some j => ret j
    | None => raise ValueError
    end.

(** The keyword arguments of [request_action]; [None] is an argument the
    caller left out, and the defaults of the signature are applied inside.
    For the arguments whose default is [None] (description, amount,
    recipient, metadata, callback_url) it is also one passed as [None]. *)
Record action_args : Type := mkArgs {
  action_type : string;
  title : string;
  description : option string;
  risk_level : option string;
  reversible : option bool;
  amount : option Q;
  currency : option string;
  recipient : option string;
  metadata : option (gmap string json);
  expires_in_seconds : option Z;
  callback_url : option string
}.

(** client.py, lines 149-166: the payload dictionary. *)
Definition request_action_payload (a : action_args) : gmap string json :=
  let payload : gmap string json :=
    <["expires_in_seconds" :=
        JNum (inject_Z (default 300 (expires_in_seconds a)))]>
    (<["reversible" := JBool (default true (reversible a))]>
    (<["risk_level" := JStr (default "medium" (risk_level a))]>
    (<["title" := JStr (title a)]>
    (<["action_type" := JStr (action_type a)]> ∅)))) in
  let payload :=
    if truthy_str (description a)
    then <["description" := opt_str (description a)]> payload
    else payload in
  let payload :=
    match amount a with
    | Some x =>
        <["currency" := JStr (default "USD" (currency a))]>
          (<["amount" := JNum x]> payload)
    | None => payload
    end in
  let payload :=
    if truthy_str (recipient a)
    then <["recipient" := opt_str (recipient a)]> payload
    else payload in
  let payload :=
    if truthy_dict (metadata a)
    then <["metadata" := JObj (default ∅ (metadata a))]> payload
    else payload in
  let payload :=
    if truthy_str (callback_url a)
    then <["callback_url" := opt_str (callback_url a)]> payload
    else payload in
  payload.

(** client.py, lines 129-168. *)
Definition request_action (a : action_args) : M json :=
  _request "POST" Actions (Some (request_action_payload a)).

(** client.py, lines 170-172. *)
Definition get_status (request_id : json) : M json :=
  _request "GET" (Action request_id) None.

(** client.py, lines 181-187.  [wait_loop] is the [while] statement
    together with the [return] that follows it; [fuel] bounds the number
    of times the loop condition is evaluated. *)
Fixpoint wait_loop (fuel : nat) (request_id : json)
    (start timeout poll_interval : Q) : M json :=
  match fuel with
  | O => diverge
  | S fuel' =>
      t <- time_time ;;
      if Qlt_le_dec (t - start) timeout then
        status <- get_status request_id ;;
        st <- py_index status "status" ;;
        if negb (is_str st "pending") then ret status
        else
          time_sleep poll_interval ;;;
          wait_loop fuel' request_id start timeout poll_interval
      else get_status request_id
  end.

Definition wait_for_result (fuel : nat) (request_id : json)
    (timeout poll_interval : option Q) : M json :=
  let timeout := default (300 # 1) timeout in
  let poll_interval := default (2 # 1) poll_interval in
  start <- time_time ;;
  wait_loop fuel request_id start timeout poll_interval.

(** The arguments of [execute_api_call]. *)
Record vault_args : Type := mkVaultArgs {
  service_name : string;
  v_method : string;
  url : string;
  headers : option (gmap string json);
  v_body : option string;
  v_description : option string;
  v_timeout : option Q;
  v_poll_interval : option Q
}.

(** client.py, lines 302-315. *)
Definition vault_payload (a : vault_args) : gmap string json :=
  <["metadata" :=
      JObj (<["body" := opt_str (v_body a)]>
           (<["headers" :=
                JObj (if truthy_dict (headers a)
                      then default ∅ (headers a) else ∅)]>
           (<["url" := JStr (url a)]>
           (<["method" := JStr (v_method a)]>
           (<["service_name" := JStr (service_name a)]>
           (<["vault_execute" := JBool true]> ∅))))))]>
  (<["risk_level" := JStr "medium"]>
  (<["description" :=
       JStr ("Service: " +:+ service_name a +:+ " | " +:+
             v_method a +:+ " " +:+ url a)]>
  (<["title" :=
       JStr (if truthy_str (v_description a)
             then default "" (v_description a)
             else "API call: " +:+ v_method a +:+ " " +:+ url a)]>
  (<["action_type" := JStr "data_access"]> ∅)))).

(** client.py, lines 326-331: the polling loop of [execute_api_call];
    [result] is the loop-carried variable, and leaving the loop by [break]
    or by the condition both continue after it. *)
Fixpoint poll_loop (fuel : nat) (request_id : json)
    (start timeout poll_interval : Q) (result : json) : M json :=
  match fuel with
  | O => diverge
  | S fuel' =>
      t <- time_time ;;
      if Qlt_le_dec (t - start) timeout then
        result <- get_status request_id ;;
        st <- py_index result "status" ;;
        if negb (is_str st "pending") then ret result
        else
          time_sleep poll_interval ;;;
          poll_loop fuel' request_id start timeout poll_interval result
      else ret result
  end.

(** client.py, lines 324-331. *)
Definition poll_phase (fuel : nat) (request_id : json)
    (timeout poll_interval : Q) (result : json) : M json :=
  st <- py_get result "status" ;;
  if is_str st "pending" then
    start <- time_time ;;
    poll_loop fuel request_id start timeout poll_interval result
  else ret result.

(** client.py, lines 333-343. *)
Definition finish_call (request_id result : json) : M json :=
  st <- py_get result "status" ;;
  if is_str st "expired" then raise (ActionExpiredError request_id)
  else
    st <- py_get result "status" ;;
    if is_str st "denied" then
      reason <- py_get result "deny_reason" ;;
      raise (ActionDeniedError request_id reason)
    else
      st <- py_get result "status" ;;
      if negb (is_str st "approved") then
        st <- py_get result "status" ;;
        raise (VaultExecutionError (UnexpectedStatus st request_id))
      else _request "POST" (VaultExecute request_id) None.

(** client.py, lines 256-343. *)
Definition execute_api_call (fuel : nat) (a : vault_args) : M json :=
  let timeout := default (120 # 1) (v_timeout a) in
  let poll_interval := default (3 # 1) (v_poll_interval a) in
  result <- _request "POST" Actions (Some (vault_payload a)) ;;
  st <- py_get result "status" ;;
  if is_str st "denied" then
    request_id <- py_index result "id" ;;
    reason <- py_get result "deny_reason" ;;
    raise (ActionDeniedError request_id reason)
  else
    request_id <- py_index result "id" ;;
    result <- poll_phase fuel request_id timeout poll_interval result ;;
    finish_call request_id result.

(** The [**kwargs] of the convenience methods: the keyword arguments of
    [request_action] a caller may add.  A keyword that the method also
    passes itself makes the inner call fail with [TypeError] (multiple
    values for one keyword) before anything is sent. *)
Record kwargs : Type := mkKwargs {
  kw_action_type : option string;
  kw_title : option string;
  kw_description : option string;
  kw_risk_level : option string;
  kw_reversible : option bool;
  kw_amount : option Q;
  kw_currency : option string;
  kw_recipient : option string;
  kw_metadata : option (gmap string json);
  kw_expires_in_seconds : option Z;
  kw_callback_url : option string
}.

Definition no_kwargs : kwargs :=
  mkKwargs None None None None None None None None None None None.

Definition given {A} (o : option A) : bool :=
  match o with Some _ => true | None => false end.

(** client.py, lines 347-355. *)
Definition request_email (recipient subject : string)
    (preview : option string) (kw : kwargs) : M json :=
  if given (kw_action_type kw) || given (kw_title kw)
     || given (kw_description kw) || given (kw_recipient kw)
  then raise TypeError
  else request_action
    {| action_type := "communication";
       title := "Send email: " +:+ subject;
       description := preview;
       recipient := Some recipient;
       risk_level := Some (default "low" (kw_risk_level kw));
       reversible := kw_reversible kw;
       amount := kw_amount kw;
       currency := kw_currency kw;
       metadata := kw_metadata kw;
       expires_in_seconds := kw_expires_in_seconds kw;
       callback_url := kw_callback_url kw |}.

(** client.py, lines 357-366. *)
Definition request_purchase (amount : Q) (merchant : string)
    (description : option string) (kw : kwargs) : M json :=
  if given (kw_action_type kw) || given (kw_title kw)
     || given (kw_description kw) || given (kw_amount kw)
     || given (kw_recipient kw)
  then raise TypeError
  else request_action
    {| action_type := "purchase";
       title := "Purchase from " +:+ merchant;
       description := description;
       amount := Some amount;
       recipient := Some merchant;
       risk_level := Some (default "medium" (kw_risk_level kw));
       reversible := kw_reversible kw;
       currency := kw_currency kw;
       metadata := kw_metadata kw;
       expires_in_seconds := kw_expires_in_seconds kw;
       callback_url := kw_callback_url kw |}.

(** client.py, lines 368-376. *)
Definition request_booking (title : string) (description : option string)
    (amount : option Q) (kw : kwargs) : M json :=
  if given (kw_action_type kw) || given (kw_title kw)
     || given (kw_description kw) || given (kw_amount kw)
  then raise TypeError
  else request_action
    {| action_type := "scheduling";
       title := title;
       description := description;
       amount := amount;
       risk_level := Some (default "low" (kw_risk_level kw));
       reversible := kw_reversible kw;
       currency := kw_currency kw;
       recipient := kw_recipient kw;
       metadata := kw_metadata kw;
       expires_in_seconds := kw_expires_in_seconds kw;
       callback_url := kw_callback_url kw |}.

(** client.py, lines 378-385. *)
Definition request_post (platform content_preview : string)
    (kw : kwargs) : M json :=
  if given (kw_action_type kw) || given (kw_title kw)
     || given (kw_description kw)
  then raise TypeError
  else request_action
    {| action_type := "social";
       title := "Post to " +:+ platform;
       description := Some content_preview;
       risk_level := Some (default "medium" (kw_risk_level kw));
       reversible := kw_reversible kw;
       amount := kw_amount kw;
       currency := kw_currency kw;
       recipient := kw_recipient kw;
       metadata := kw_metadata kw;
       expires_in_seconds := kw_expires_in_seconds kw;
       callback_url := kw_callback_url kw |}.

(** client.py, lines 387-394. *)
Definition request_data_access (resource reason : string)
    (kw : kwargs) : M json :=
  if given (kw_action_type kw) || given (kw_title kw)
     || given (kw_description kw)
  then raise TypeError
  else request_action
    {| action_type := "data_access";
       title := "Access: " +:+ resource;
       description := Some reason;
       risk_level := Some (default "high" (kw_risk_level kw));
       reversible := kw_reversible kw;
       amount := kw_amount kw;
       currency := kw_currency kw;
       recipient := kw_recipient kw;
       metadata := kw_metadata kw;
       expires_in_seconds := kw_expires_in_seconds kw;
       callback_url := kw_callback_url kw |}.

(** client.py, lines 396-404. *)
Definition request_contract (title description : string)
    (kw : kwargs) : M json :=
  if given (kw_action_type kw) || given (kw_title kw)
     || given (kw_description kw) || given (kw_reversible kw)
  then raise TypeError
  else request_action
    {| action_type := "legal";
       title := title;
       description := Some description;
       reversible := Some false;
       risk_level := Some (default "critical" (kw_risk_level kw));
       amount := kw_amount kw;
       currency := kw_currency kw;
       recipient := kw_recipient kw;
       metadata := kw_metadata kw;
       expires_in_seconds := kw_expires_in_seconds kw;
       callback_url := kw_callback_url kw |}.

End Client.
End SynAuthClient.

(** ** The client's base URL *)

Module SynAuthClientUrl.

(** Python's [s.rstrip("/")]: every slash at the end of [s] is dropped. *)
Fixpoint rstrip_slash (s : string) : string :=
  match s with
  | EmptyString => EmptyString
  | String c s' =>
      match rstrip_slash s' with
      | EmptyString => if Ascii.eqb c "/"%char then EmptyString
                       else String c EmptyString
      | String c' r => String c (String c' r)
      end
  end.

Definition API_VERSION : string := "v1".

(** client.py, line 103: what [__init__] stores as [self.base_url]. *)
Definition init_base_url (base_url : string) : string :=
  rstrip_slash base_url.

(** client.py, line 112: the URL of a request to [path]. *)
Definition request_url (base_url path : string) : string :=
  base_url +:+ "/api/" +:+ API_VERSION +:+ path.

End SynAuthClientUrl.

(** ** [SynPayClient] (pay.py) *)

Module SynPayClient.
Section Pay.

Variable E : env.

(** pay.py, lines 34-52: [currency] and [metadata] travel as keyword
    arguments of [request_purchase]; [currency] is always passed, with
    the default of this signature when the caller left it out. *)
Definition request_payment (amount : Q) (merchant description : string)
    (currency : option string) (metadata : option (gmap string json))
    : M json :=
  SynAuthClient.request_purchase E amount merchant (Some description)
    {| SynAuthClient.kw_action_type := None;
       SynAuthClient.kw_title := None;
       SynAuthClient.kw_description := None;
       SynAuthClient.kw_risk_level := None;
       SynAuthClient.kw_reversible := None;
       SynAuthClient.kw_amount := None;
       SynAuthClient.kw_currency := Some (default "USD" currency);
       SynAuthClient.kw_recipient := None;
       SynAuthClient.kw_metadata := metadata;
       SynAuthClient.kw_expires_in_seconds := None;
       SynAuthClient.kw_callback_url := None |}.

(** pay.py, lines 54-56. *)
Definition get_status (request_id : json) : M json :=
  SynAuthClient.get_status E request_id.

(** pay.py, lines 58-71: the wrapper has its own defaults and passes both
    values on positionally. *)
Definition wait_for_result (fuel : nat) (request_id : json)
    (timeout poll_interval : option Q) : M json :=
  SynAuthClient.wait_for_result E fuel request_id
    (Some (default (300 # 1) timeout))
    (Some (default (2 # 1) poll_interval)).

End Pay.
End SynPayClient.

(** ** The content fingerprint *)

Module Fingerprint.
Section Hash.

(** The byte-level serialisation of an ordered item list and the digest
    applied to it are fixed but left open here: the properties below hold
    for every choice. *)
Variable serialize : list (string * json) -> string.
Variable digest : string -> string.

(** A Python dictionary as the list of its items in insertion order;
    storing under a key that is already there replaces the value in
    place. *)
Fixpoint dict_set (k : string) (v : json) (d : list (string * json))
    : list (string * json) :=
  match d with
  | [] => [(k, v)]
  | (k', v') :: d' =>
      if decide (k = k') then (k, v) :: d' else (k', v') :: dict_set k v d'
  end.

Definition dict_of (items : list (string * json)) : list (string * json) :=
  foldl (fun d kv => dict_set kv.1 kv.2 d) [] items.

Definition key_le (x y : string * json) : Prop := String.le x.1 y.1.

(** Modelled from the spec: the canonical key order of section 4.4
    ("canonicalize key order before hashing"); the function is not among
    the sources, only its import and its calls in the examples are. *)
Definition canonical (params : list (string * json))
    : list (string * json) :=
  merge_sort key_le params.

(** Modelled from the spec: [compute_content_hash], which the examples
    import from the package but whose definition is not among the
    sources.  Sections 3 and 4.4 describe it as a digest over a
    serialisation of the parameters in canonical key order. *)
Definition compute_content_hash (params : list (string * json)) : string :=
  digest (serialize (canonical params)).

(** Modelled from the spec: the fingerprint the backend reports in
    [content_hash].  The backend is outside the repository; section 3
    requires it to be the same digest over the same canonical
    serialisation, computed over the parameters as the backend holds
    them. *)
Definition backend_content_hash (received : list (string * json)) : string :=
  digest (serialize (canonical received)).

End Hash.
End Fingerprint.

(** ** Notions used in the statements *)

Definition status_request (request_id : json) : request :=
  mkRequest "GET" (Action request_id) None.

(** The [n]-th HTTP request, when it is a status fetch for [request_id],
    is answered with a success whose body is the snapshot [s]. *)
Definition fetch_gives (E : env) (n : nat) (request_id s : json) : Prop :=
  exists r,
    respond E n (status_request request_id) = Resp r /\
    (status_code r =? 429) = false /\
    SynAuthClient.ok r = true /\
    parsed r = Some s.

Definition has_status (s : json) (st : string) : Prop :=
  exists o, s = JObj o /\ o !! "status" = Some (JStr st).

(** A snapshot whose status is "pending", and one whose status is there
    and is anything else. *)
Definition pending (s : json) : bool :=
  match s with
  | JObj o =>
      match o !! "status" with
      | Some st => is_str st "pending"
      | None => false
      end
  | _ => false
  end.

Definition resolved (s : json) : bool :=
  match s with
  | JObj o =>
      match o !! "status" with
      | Some st => negb (is_str st "pending")
      | None => false
      end
  | _ => false
  end.

(** The time at which the [i]-th round of a polling loop starts, for a
    loop entered at time [t] with [n] requests already sent, as long as
    every earlier fetch came back pending: each round takes the round trip
    of its fetch and the sleep. *)
Fixpoint poll_time (E : env) (poll_interval : Q) (n : nat) (t : Q) (i : nat)
    : Q :=
  match i with
  | O => t
  | S i' =>
      poll_time E poll_interval (S n) (t + latency E n + poll_interval)%Q i'
  end.

(** The log entries of the first [k] status fetches of such a loop, newest
    first. *)
Fixpoint fetches (E : env) (poll_interval : Q) (request_id : json) (n : nat)
    (t : Q) (k : nat) : list (Q * request) :=
  match k with
  | O => []
  | S k' =>
      (fetches E poll_interval request_id (S n)
         (t + latency E n + poll_interval)%Q k'
       ++ [(t, status_request request_id)])%list
  end.

(** The world after [k] rounds of a polling loop that all came back
    pending. *)
Definition after_rounds (E : env) (poll_interval : Q) (request_id : json)
    (w : world) (k : nat) : world :=
  {| now := poll_time E poll_interval (calls w) (now w) k;
     sent := (fetches E poll_interval request_id (calls w) (now w) k
              ++ sent w)%list |}.

(** The [n]-th request (counting from 0) in the log of [w]. *)
Definition nth_request (w : world) (n : nat) : option (Q * request) :=
  rev (sent w) !! n.

(** The [n]-th request in the log of [w] was answered with a JSON object
    whose status is approved. *)
Definition reported_approved (E : env) (w : world) (n : nat) : Prop :=
  exists t rq r o,
    nth_request w n = Some (t, rq) /\
    respond E n rq = Resp r /\ parsed r = Some (JObj o) /\
    o !! "status" = Some (JStr "approved").

(** A string of [n] slashes. *)
Fixpoint slashes (n : nat) : string :=
  match n with
  | O => ""
  | S n' => String "/"%char (slashes n')
  end.

(** A computation only ever adds requests to the log. *)
Definition grows {A} (m : M A) : Prop :=
  forall w, exists rest, sent (m w).2 = (rest ++ sent w)%list.

(** [submits m w ty rl]: run from [w], [m] issues exactly one request, a
    POST /actions with action_type [ty] and risk_level [rl]. *)
Definition submits (m : M json) (w : world) (ty rl : string) : Prop :=
  exists p,
    sent (m w).2 = (now w, mkRequest "POST" Actions (Some p)) :: sent w /\
    p !! "action_type" = Some (JStr ty) /\
    p !! "risk_level" = Some (JStr rl).

(** [submits_irreversible]: the same with reversible = false. *)
Definition submits_irreversible (m : M json) (w : world) (ty rl : string)
    : Prop :=
  exists p,
    sent (m w).2 = (now w, mkRequest "POST" Actions (Some p)) :: sent w /\
    p !! "action_type" = Some (JStr ty) /\
    p !! "risk_level" = Some (JStr rl) /\
    p !! "reversible" = Some (JBool false).

(** [rejected m w]: the call fails on its arguments and sends nothing. *)
Definition rejected (m : M json) (w : world) : Prop :=
  m w = (Raise TypeError, w).

(** * Properties *)

(** ** Running the monad *)

Lemma bind_ret {A B} (m : M A) (k : A -> M B) w a w' :
  m w = (Ret a, w') -> bind m k w = k a w'.
Proof. intros H. unfold bind. by rewrite H. Qed.

Lemma bind_raise {A B} (m : M A) (k : A -> M B) w e w' :
  m w = (Raise e, w') -> bind m k w = (Raise e, w').
Proof. intros H. unfold bind. by rewrite H. Qed.

Lemma bind_diverge {A B} (m : M A) (k : A -> M B) w w' :
  m w = (Diverge, w') -> bind m k w = (Diverge, w').
Proof. intros H. unfold bind. by rewrite H. Qed.

(** ** The payload of [request_action] *)

Section Payload.
Import SynAuthClient.

Lemma truthy_str_None : truthy_str None = false.
Proof. reflexivity. Qed.

Lemma truthy_str_empty : truthy_str (Some "") = false.
Proof. reflexivity. Qed.

Lemma truthy_dict_empty : truthy_dict (Some ∅) = false.
Proof. reflexivity. Qed.

Lemma truthy_str_opt_str o : truthy_str o = true -> opt_str o <> JNull.
Proof. by destruct o. Qed.

Lemma lookup_cond_insert (c : bool) k v (p : gmap string json) k' :
  (if c then <[k:=v]> p else p) !! k'
  = if c && bool_decide (k = k') then Some v else p !! k'.
Proof.
  destruct c; simpl; [|done].
  case_bool_decide; subst; [apply lookup_insert_eq|by apply lookup_insert_ne].
Qed.

Ltac payload_cases a :=
  unfold request_action_payload;
  destruct (amount a) eqn:?; cbv zeta;
  repeat first [rewrite lookup_cond_insert | rewrite lookup_insert
               | rewrite lookup_empty];
  simpl; rewrite ?andb_false_r, ?andb_true_r.

Lemma payload_required a :
  request_action_payload a !! "action_type" = Some (JStr (action_type a)) /\
  request_action_payload a !! "title" = Some (JStr (title a)) /\
  request_action_payload a !! "risk_level"
    = Some (JStr (default "medium" (risk_level a))) /\
  request_action_payload a !! "reversible"
    = Some (JBool (default true (reversible a))) /\
  request_action_payload a !! "expires_in_seconds"
    = Some (JNum (inject_Z (default 300 (expires_in_seconds a)))).
Proof. payload_cases a; done. Qed.

Lemma payload_description a :
  request_action_payload a !! "description"
  = if truthy_str (description a) then Some (opt_str (description a))
    else None.
Proof. payload_cases a; done. Qed.

Lemma payload_amount a :
  request_action_payload a !! "amount" = JNum <$> amount a.
Proof. payload_cases a; done. Qed.

Lemma payload_currency a :
  request_action_payload a !! "currency"
  = match amount a with
    | Some _ => Some (JStr (default "USD" (currency a)))
    | None => None
    end.
Proof. payload_cases a; done. Qed.

Lemma payload_recipient a :
  request_action_payload a !! "recipient"
  = if truthy_str (recipient a) then Some (opt_str (recipient a)) else None.
Proof. payload_cases a; done. Qed.

Lemma payload_metadata a :
  request_action_payload a !! "metadata"
  = if truthy_dict (metadata a) then Some (JObj (default ∅ (metadata a)))
    else None.
Proof. payload_cases a; done. Qed.

Lemma payload_callback_url a :
  request_action_payload a !! "callback_url"
  = if truthy_str (callback_url a) then Some (opt_str (callback_url a))
    else None.
Proof. payload_cases a; done. Qed.

End Payload.

(** ** What a call sends *)

Section Sent.
Import SynAuthClient.
Variable E : env.

Lemma grows_ret {A} (a : A) : grows (ret a).
Proof. intros w. by exists []. Qed.

Lemma grows_raise {A} e : grows (@raise A e).
Proof. intros w. by exists []. Qed.

Lemma grows_diverge {A} : grows (@diverge A).
Proof. intros w. by exists []. Qed.

Lemma grows_bind {A B} (m : M A) (k : A -> M B) :
  grows m -> (forall a, grows (k a)) -> grows (bind m k).
Proof.
  intros Hm Hk w. unfold bind. destruct (Hm w) as [r1 H1].
  destruct (m w) as [[a|e|] w1]; simpl in *; [|by eexists..].
  destruct (Hk a w1) as [r2 H2]. exists (r2 ++ r1)%list.
  by rewrite H2, H1, (assoc_L (++)).
Qed.

Lemma grows_time_time : grows time_time.
Proof. intros w. by exists []. Qed.

Lemma grows_time_sleep d : grows (time_sleep d).
Proof. intros w. exists []. unfold time_sleep. by destruct (Qlt_le_dec d 0). Qed.

Lemma grows_py_get d k : grows (py_get d k).
Proof. destruct d; apply grows_ret || apply grows_raise. Qed.

Lemma grows_py_index d k : grows (py_index d k).
Proof.
  destruct d; simpl; try apply grows_raise.
  destruct (m !! k); apply grows_ret || apply grows_raise.
Qed.

Lemma session_request_sent rq w :
  sent (session_request E rq w).2 = (now w, rq) :: sent w.
Proof. unfold session_request. by destruct (respond E (calls w) rq). Qed.

(** [_request] issues exactly one HTTP request, whatever the reply. *)
Lemma _request_sent meth p payload w :
  sent (_request E meth p payload w).2
  = (now w, mkRequest meth p payload) :: sent w.
Proof.
  unfold _request, bind.
  pose proof (session_request_sent (mkRequest meth p payload) w) as H.
  destruct (session_request E _ w) as [[r|e|] w1]; simpl in *; [|done..].
  destruct (status_code r =? 429); [done|].
  destruct (negb (ok r)); [|by destruct (parsed r)].
  destruct (parsed r) as [[]|]; done.
Qed.

Lemma grows__request meth p payload : grows (_request E meth p payload).
Proof. intros w. eexists [_]. apply _request_sent. Qed.

Lemma grows_get_status rid : grows (get_status E rid).
Proof. apply grows__request. Qed.

Lemma grows_poll_loop fuel rid start timeout poll result :
  grows (poll_loop E fuel rid start timeout poll result).
Proof.
  revert result. induction fuel as [|fuel IH]; intros result; simpl.
  { apply grows_diverge. }
  apply grows_bind; [apply grows_time_time|]. intros t.
  destruct (Qlt_le_dec (t - start) timeout); [|apply grows_ret].
  apply grows_bind; [apply grows_get_status|]. intros r.
  apply grows_bind; [apply grows_py_index|]. intros st.
  destruct (negb (is_str st "pending")); [apply grows_ret|].
  apply grows_bind; [apply grows_time_sleep|]. intros _. apply IH.
Qed.

Lemma grows_poll_phase fuel rid timeout poll result :
  grows (poll_phase E fuel rid timeout poll result).
Proof.
  unfold poll_phase. apply grows_bind; [apply grows_py_get|]. intros st.
  destruct (is_str st "pending"); [|apply grows_ret].
  apply grows_bind; [apply grows_time_time|]. intros t.
  apply grows_poll_loop.
Qed.

Lemma grows_finish_call rid result : grows (finish_call E rid result).
Proof.
  unfold finish_call.
  repeat first
    [ apply grows_raise | apply grows__request | apply grows_py_get
    | apply grows_bind; [|intros ?]
    | match goal with |- grows (if ?c then _ else _) => destruct c end ].
Qed.

End Sent.


(** ** Optional fields of [request_action] (C6, C10) *)

Section Optional.
Import SynAuthClient.

Lemma map_Forall_cond_insert (P : string -> json -> Prop) (c : bool) k v
    (p : gmap string json) :
  map_Forall P p -> (c = true -> P k v) ->
  map_Forall P (if c then <[k:=v]> p else p).
Proof. destruct c; [|done]. intros Hp Hv. apply map_Forall_insert_2; auto. Qed.

Lemma payload_no_null a :
  map_Forall (fun _ v => v <> JNull) (request_action_payload a).
Proof.
  unfold request_action_payload. cbv zeta.
  do 3 (apply map_Forall_cond_insert;
        [|intros; first [done | by apply truthy_str_opt_str]]).
  destruct (amount a);
    repeat first
      [ apply map_Forall_empty
      | apply map_Forall_insert_2; [done|]
      | apply map_Forall_cond_insert;
        [|intros; by apply truthy_str_opt_str] ].
Qed.

End Optional.

(** C6 does not hold as stated: with an amount and no currency supplied,
    the payload still carries a currency, the default of the signature. *)
Lemma request_action_currency_counterexample :
  let a := SynAuthClient.mkArgs "purchase" "Buy credits" None None None
             (Some (5 # 1)%Q) None None None None None in
  SynAuthClient.currency a = None /\
  SynAuthClient.request_action_payload a !! "currency" = Some (JStr "USD").
Proof. split; [reflexivity|]. by rewrite payload_currency. Qed.

(** C6 (amended): [request_action] sends exactly one POST /actions whose
    payload has no entry for a description, amount, recipient, metadata or
    callback_url the caller did not supply, has no currency when no amount
    is supplied, never maps a key to null, and always carries action_type,
    title, risk_level, reversible and expires_in_seconds. *)
Theorem request_action_omits_absent (E : env) (a : SynAuthClient.action_args)
    (w : world) :
  let p := SynAuthClient.request_action_payload a in
  sent (SynAuthClient.request_action E a w).2
    = (now w, mkRequest "POST" Actions (Some p)) :: sent w /\
  (SynAuthClient.description a = None -> p !! "description" = None) /\
  (SynAuthClient.amount a = None ->
     p !! "amount" = None /\ p !! "currency" = None) /\
  (SynAuthClient.recipient a = None -> p !! "recipient" = None) /\
  (SynAuthClient.metadata a = None -> p !! "metadata" = None) /\
  (SynAuthClient.callback_url a = None -> p !! "callback_url" = None) /\
  (forall k, p !! k <> Some JNull) /\
  p !! "action_type" = Some (JStr (SynAuthClient.action_type a)) /\
  p !! "title" = Some (JStr (SynAuthClient.title a)) /\
  p !! "risk_level"
    = Some (JStr (default "medium" (SynAuthClient.risk_level a))) /\
  p !! "reversible"
    = Some (JBool (default true (SynAuthClient.reversible a))) /\
  p !! "expires_in_seconds"
    = Some (JNum (inject_Z
                    (default 300 (SynAuthClient.expires_in_seconds a)))).
Proof.
  intros p. subst p.
  split; [apply _request_sent|].
  split; [intros H; by rewrite payload_description, H|].
  split; [intros H; by rewrite payload_amount, payload_currency, H|].
  split; [intros H; by rewrite payload_recipient, H|].
  split; [intros H; by rewrite payload_metadata, H|].
  split; [intros H; by rewrite payload_callback_url, H|].
  split; [|apply payload_required].
  intros k Hk. by apply (payload_no_null a k JNull).
Qed.

Lemma request_action_omits_absent_witness :
  let a := SynAuthClient.mkArgs "communication" "Send report" None None None
             None None None None None None in
  let p := SynAuthClient.request_action_payload a in
  p !! "description" = None /\ p !! "amount" = None /\
  p !! "currency" = None /\ p !! "recipient" = None /\
  p !! "metadata" = None /\ p !! "callback_url" = None /\
  p !! "title" = Some (JStr "Send report").
Proof.
  intros a p.
  destruct (request_action_omits_absent (mkEnv (fun _ _ => NetFail) (fun _ => 0%Q))
              a (mkWorld 0%Q []))
    as (_ & Hd & Ha & Hr & Hm & Hc & _ & _ & Ht & _).
  destruct (Ha eq_refl) as [Ha1 Ha2].
  exact (conj (Hd eq_refl) (conj Ha1 (conj Ha2 (conj (Hr eq_refl)
          (conj (Hm eq_refl) (conj (Hc eq_refl) Ht)))))).
Defined.



(** ** The vault request (C9) *)

Lemma sent_bind_grows {A B} (m : M A) (k : A -> M B) w :
  (forall a, grows (k a)) ->
  exists rest, sent (bind m k w).2 = (rest ++ sent (m w).2)%list.
Proof.
  intros Hk. unfold bind.
  destruct (m w) as [[a|e|] w1]; simpl; [|by exists []..].
  apply Hk.
Qed.

Lemma vault_headers_or_empty (h : option (gmap string json)) :
  (if truthy_dict h then default ∅ h else ∅) = default ∅ h.
Proof.
  destruct h as [m|]; simpl; [|done].
  case_bool_decide; simpl; by subst.
Qed.

(** C9: whatever service, method, URL or body is asked for, the first
    request [execute_api_call] issues is a POST /actions whose payload has
    action_type data_access and risk_level medium, and whose metadata holds
    vault_execute = true together with service_name, method, url, headers
    and body. *)
Theorem execute_api_call_submits_vault_request (E : env) (fuel : nat)
    (a : SynAuthClient.vault_args) (w : world) :
  let p := SynAuthClient.vault_payload a in
  (exists rest,
     sent (SynAuthClient.execute_api_call E fuel a w).2
     = (rest ++ (now w, mkRequest "POST" Actions (Some p)) :: sent w)%list) /\
  p !! "action_type" = Some (JStr "data_access") /\
  p !! "risk_level" = Some (JStr "medium") /\
  exists md,
    p !! "metadata" = Some (JObj md) /\
    md !! "vault_execute" = Some (JBool true) /\
    md !! "service_name" = Some (JStr (SynAuthClient.service_name a)) /\
    md !! "method" = Some (JStr (SynAuthClient.v_method a)) /\
    md !! "url" = Some (JStr (SynAuthClient.url a)) /\
    md !! "headers" = Some (JObj (default ∅ (SynAuthClient.headers a))) /\
    md !! "body" = Some (opt_str (SynAuthClient.v_body a)).
Proof.
  intros p. split.
  - unfold SynAuthClient.execute_api_call.
    rewrite <- (_request_sent E "POST" Actions (Some p) w).
    apply sent_bind_grows. intros result.
    apply grows_bind; [apply grows_py_get|]. intros st.
    destruct (is_str st "denied").
    + repeat first [apply grows_raise | apply grows_py_get
                   | apply grows_py_index | apply grows_bind; [|intros ?]].
    + apply grows_bind; [apply grows_py_index|]. intros rid.
      apply grows_bind; [apply grows_poll_phase|]. intros r.
      apply grows_finish_call.
  - subst p. unfold SynAuthClient.vault_payload.
    rewrite vault_headers_or_empty.
    split; [by simplify_map_eq|]. split; [by simplify_map_eq|].
    eexists. split; [by simplify_map_eq|].
    repeat split; by simplify_map_eq.
Qed.

(** ** Category helpers and the payment client (C7, C8) *)

Section Helpers.
Import SynAuthClient.
Variable E : env.

Lemma request_action_submits a w :
  submits (request_action E a) w (action_type a)
    (default "medium" (risk_level a)).
Proof.
  exists (request_action_payload a).
  split; [apply _request_sent|].
  destruct (payload_required a) as (? & _ & ? & _). done.
Qed.

Lemma request_action_submits_irreversible a w :
  reversible a = Some false ->
  submits_irreversible (request_action E a) w (action_type a)
    (default "medium" (risk_level a)).
Proof.
  intros Hrev. exists (request_action_payload a).
  split; [apply _request_sent|].
  destruct (payload_required a) as (? & _ & ? & Hr & _).
  rewrite Hrev in Hr. done.
Qed.

End Helpers.

(** C7: the payment wrapper always submits action_type purchase; the
    contract helper submits reversible = false with risk level critical
    unless the caller gives another; every helper submits its fixed
    category with its default risk level (low for email and booking,
    medium for purchase and post, high for data access, critical for
    contract) unless the caller gives another.  A helper called with a
    keyword it sets itself is refused without sending anything. *)
Theorem category_defaults (E : env) (w : world) (kw : SynAuthClient.kwargs) :
  let risk d := default d (SynAuthClient.kw_risk_level kw) in
  let clash := SynAuthClient.given (SynAuthClient.kw_action_type kw)
               || SynAuthClient.given (SynAuthClient.kw_title kw)
               || SynAuthClient.given (SynAuthClient.kw_description kw) in
  (forall amount merchant description currency metadata,
     submits (SynPayClient.request_payment E amount merchant description
                currency metadata) w "purchase" "medium") /\
  (forall title description,
     if clash || SynAuthClient.given (SynAuthClient.kw_reversible kw)
     then rejected (SynAuthClient.request_contract E title description kw) w
     else submits_irreversible
            (SynAuthClient.request_contract E title description kw) w
            "legal" (risk "critical")) /\
  (forall recipient subject preview,
     if clash || SynAuthClient.given (SynAuthClient.kw_recipient kw)
     then rejected
            (SynAuthClient.request_email E recipient subject preview kw) w
     else submits (SynAuthClient.request_email E recipient subject preview kw)
            w "communication" (risk "low")) /\
  (forall title description amount,
     if clash || SynAuthClient.given (SynAuthClient.kw_amount kw)
     then rejected
            (SynAuthClient.request_booking E title description amount kw) w
     else submits
            (SynAuthClient.request_booking E title description amount kw)
            w "scheduling" (risk "low")) /\
  (forall amount merchant description,
     if clash || SynAuthClient.given (SynAuthClient.kw_amount kw)
        || SynAuthClient.given (SynAuthClient.kw_recipient kw)
     then rejected
            (SynAuthClient.request_purchase E amount merchant description kw)
            w
     else submits
            (SynAuthClient.request_purchase E amount merchant description kw)
            w "purchase" (risk "medium")) /\
  (forall platform content_preview,
     if clash
     then rejected (SynAuthClient.request_post E platform content_preview kw)
            w
     else submits (SynAuthClient.request_post E platform content_preview kw)
            w "social" (risk "medium")) /\
  (forall resource reason,
     if clash
     then rejected (SynAuthClient.request_data_access E resource reason kw) w
     else submits (SynAuthClient.request_data_access E resource reason kw)
            w "data_access" (risk "high")).
Proof.
  intros risk clash. subst risk clash.
  split.
  { intros. unfold SynPayClient.request_payment,
      SynAuthClient.request_purchase. simpl.
    apply (request_action_submits E). }
  split.
  { intros. unfold SynAuthClient.request_contract.
    destruct (_ || _); [done|].
    by apply (request_action_submits_irreversible E). }
  split.
  { intros. unfold SynAuthClient.request_email.
    destruct (_ || _); [done|]. apply (request_action_submits E). }
  split.
  { intros. unfold SynAuthClient.request_booking.
    destruct (_ || _); [done|]. apply (request_action_submits E). }
  split.
  { intros. unfold SynAuthClient.request_purchase.
    destruct (_ || _); [done|]. apply (request_action_submits E). }
  split.
  { intros. unfold SynAuthClient.request_post.
    destruct (_ || _); [done|]. apply (request_action_submits E). }
  intros. unfold SynAuthClient.request_data_access.
  destruct (_ || _); [done|]. apply (request_action_submits E).
Qed.

(** C8: the payment client adds nothing of its own.  Its [get_status] and
    [wait_for_result] give, from every world, what the core client's give
    for the same arguments, and [request_payment] gives what
    [request_purchase] gives for the same amount, merchant, description,
    currency and metadata. *)
Theorem pay_client_forwards (E : env) (w : world) (fuel : nat)
    (request_id : json) (timeout poll_interval : option Q)
    (amount : Q) (merchant description : string)
    (currency : option string) (metadata : option (gmap string json)) :
  SynPayClient.get_status E request_id w
    = SynAuthClient.get_status E request_id w /\
  SynPayClient.wait_for_result E fuel request_id timeout poll_interval w
    = SynAuthClient.wait_for_result E fuel request_id timeout poll_interval w
  /\
  SynPayClient.request_payment E amount merchant description currency
      metadata w
    = SynAuthClient.request_purchase E amount merchant (Some description)
        (SynAuthClient.mkKwargs None None None None None None currency None
           metadata None None) w.
Proof.
  split; [reflexivity|]. split; [reflexivity|].
  unfold SynPayClient.request_payment, SynAuthClient.request_purchase.
  simpl. unfold SynAuthClient.request_action. reflexivity.
Qed.

(** ** The request layer (C3) *)

(** C3 does not hold as stated: a status outside 2xx that [requests]
    still counts as [ok] (any code below 400, here 300 with a JSON body)
    raises nothing; the body is handed back as a normal result. *)
Lemma _request_redirect_counterexample :
  let r := mkResponse 300 "{}" (Some (JObj ∅)) in
  let E := mkEnv (fun _ _ => Resp r) (fun _ => 0%Q) in
  (status_code r <? 200) || (299 <? status_code r) = true /\
  (SynAuthClient._request E "GET" (Action (JStr "act_1")) None
     (mkWorld 0%Q [])).1 = Ret (JObj ∅).
Proof. split; reflexivity. Qed.

(** The missed case of the fallback: an error status whose body is JSON but
    not an object (here 500 with the body [[]]) escapes as the
    [AttributeError] of [.get], which the [except] clause does not name. *)
Lemma _request_non_object_body :
  let r := mkResponse 500 "[]" (Some (JArr [])) in
  let E := mkEnv (fun _ _ => Resp r) (fun _ => 0%Q) in
  (SynAuthClient._request E "GET" (Action (JStr "act_1")) None
     (mkWorld 0%Q [])).1 = Raise AttributeError.
Proof. reflexivity. Qed.

(** C3 (amended): for the reply [r] to a request, status 429 raises
    [RateLimitError], an API failure with status code 429; every other
    status from 400 to 599 whose body is a JSON object or is not JSON
    raises [SynAuthAPIError] with that status code and, as detail, the
    object's detail entry when there is one and the raw text otherwise;
    and a status that [requests] counts as [ok] raises no API failure but
    hands back the parsed body. *)
Theorem _request_error_mapping (E : env) (meth : string) (p : endpoint)
    (payload : option (gmap string json)) (w : world) (r : response) :
  respond E (calls w) (mkRequest meth p payload) = Resp r ->
  let out := (SynAuthClient._request E meth p payload w).1 in
  (status_code r = 429 ->
     exists e, out = Raise e /\ is_rate_limit e = true /\
               is_api_error e = true /\ api_status_code e = Some 429) /\
  (status_code r <> 429 -> 400 <= status_code r < 600 ->
     (forall o, parsed r = Some (JObj o) ->
        out = Raise (SynAuthAPIError (status_code r)
                       (default (JStr (text r)) (o !! "detail")))) /\
     (parsed r = None ->
        out = Raise (SynAuthAPIError (status_code r) (JStr (text r))))) /\
  (status_code r < 400 \/ 600 <= status_code r ->
     forall j, parsed r = Some j -> out = Ret j).
Proof.
  intros Hr out. subst out.
  unfold SynAuthClient._request, bind, SynAuthClient.session_request.
  rewrite Hr. simpl. unfold SynAuthClient.ok.
  split; [|split].
  - intros ->. simpl. eexists. split; [reflexivity|]. done.
  - intros Hne Hrange.
    destruct (Z.eqb_spec (status_code r) 429) as [?|_]; [done|].
    replace (400 <=? status_code r) with true by (symmetry; lia).
    replace (status_code r <? 600) with true by (symmetry; lia). simpl.
    split; [by intros o ->|by intros ->].
  - intros Hrange j Hj.
    destruct (Z.eqb_spec (status_code r) 429) as [?|_]; [lia|].
    destruct Hrange.
    + replace (400 <=? status_code r) with false by (symmetry; lia).
      simpl. by rewrite Hj.
    + replace (status_code r <? 600) with false by (symmetry; lia).
      rewrite andb_false_r. simpl. by rewrite Hj.
Qed.

Lemma _request_error_mapping_witness :
  let forbidden := mkResponse 403 "{...}"
                     (Some (JObj {["detail" := JStr "forbidden"]})) in
  let E := mkEnv (fun _ _ => Resp forbidden) (fun _ => 0%Q) in
  (SynAuthClient._request E "GET" (Action (JStr "act_1")) None
     (mkWorld 0%Q [])).1
  = Raise (SynAuthAPIError 403 (JStr "forbidden")).
Proof.
  intros forbidden E.
  destruct (_request_error_mapping E "GET" (Action (JStr "act_1")) None
              (mkWorld 0%Q []) forbidden eq_refl) as (_ & H & _).
  destruct H as [H _]; [discriminate | simpl; lia |].
  exact (H _ eq_refl).
Defined.

(** ** The polling loops (C1, C4) *)

Section Polling.
Import SynAuthClient.
Variable E : env.
Variable rid : json.
Variables T P : Q.

Lemma get_status_gives w s :
  fetch_gives E (calls w) rid s ->
  get_status E rid w
  = (Ret s, {| now := (now w + latency E (calls w))%Q;
               sent := (now w, status_request rid) :: sent w |}).
Proof.
  intros (r & Hr & H429 & Hok & Hs).
  unfold get_status, _request, bind, session_request.
  fold (status_request rid). rewrite Hr. simpl.
  by rewrite H429, Hok, Hs.
Qed.

Lemma py_index_pending s w :
  pending s = true ->
  exists st, py_index s "status" w = (Ret st, w) /\
             is_str st "pending" = true.
Proof.
  destruct s as [| | | | |o]; simpl; try done.
  destruct (o !! "status") as [st|]; [|done]. by exists st.
Qed.


Lemma time_sleep_nonneg w :
  (0 <= P)%Q ->
  time_sleep P w = (Ret tt, {| now := (now w + P)%Q; sent := sent w |}).
Proof.
  intros HP. unfold time_sleep.
  destruct (Qlt_le_dec P 0) as [Hlt|_]; [|done].
  exfalso. by apply (Qlt_not_le _ _ Hlt).
Qed.

Lemma wait_loop_S fuel start w :
  wait_loop E (S fuel) rid start T P w
  = if Qlt_le_dec (now w - start) T then
      bind (get_status E rid) (fun status =>
        bind (py_index status "status") (fun st =>
          if negb (is_str st "pending") then ret status
          else bind (time_sleep P)
                 (fun _ => wait_loop E fuel rid start T P))) w
    else get_status E rid w.
Proof.
  change (wait_loop E (S fuel) rid start T P w)
    with ((if Qlt_le_dec (now w - start) T
           then bind (get_status E rid) (fun status =>
                  bind (py_index status "status") (fun st =>
                    if negb (is_str st "pending") then ret status
                    else bind (time_sleep P)
                           (fun _ => wait_loop E fuel rid start T P)))
           else get_status E rid) w).
  by destruct (Qlt_le_dec (now w - start) T).
Qed.


End Polling.

(** ** Timing of the polling rounds *)

Section Timing.
Variable E : env.
Variable rid : json.
Variables T P : Q.


Lemma fetches_length k : forall n t, length (fetches E P rid n t k) = k.
Proof.
  induction k as [|k IH]; intros n t; [done|].
  simpl. rewrite length_app, IH. simpl. lia.
Qed.




Lemma archimedean :
  (0 < P)%Q -> exists N : nat, (T <= inject_Z (Z.of_nat N) * P)%Q.
Proof.
  destruct T as [a b], P as [c d]. unfold Qlt, Qle. simpl. intros Hc.
  exists (Z.to_nat (a * Z.pos d)).
  rewrite Z.mul_1_r in Hc.
  destruct (Z.le_gt_cases 0 (a * Z.pos d)) as [Hpos|Hneg].
  - rewrite Z2Nat.id by assumption.
    assert (1 <= c * Z.pos b) by nia.
    set (x := a * Z.pos d) in *.
    replace (x * c * Z.pos b) with (x * (c * Z.pos b)) by ring. nia.
  - replace (Z.to_nat (a * Z.pos d)) with 0%nat by lia. simpl. lia.
Qed.


End Timing.

(** ** [wait_for_result] (C1) *)

Lemma wait_for_result_unfold (E : env) fuel rid timeout poll_interval w :
  SynAuthClient.wait_for_result E fuel rid timeout poll_interval w
  = SynAuthClient.wait_loop E fuel rid (now w)
      (default (300 # 1) timeout) (default (2 # 1) poll_interval) w.
Proof. reflexivity. Qed.






(** ** The polling phase of [execute_api_call] against [wait_for_result] (C4) *)

Section Simulation.
Import SynAuthClient.
Variable E : env.
Variable rid : json.
Variables T P : Q.

Lemma poll_loop_S fuel start result w :
  poll_loop E (S fuel) rid start T P result w
  = if Qlt_le_dec (now w - start) T then
      bind (get_status E rid) (fun result =>
        bind (py_index result "status") (fun st =>
          if negb (is_str st "pending") then ret result
          else bind (time_sleep P)
                 (fun _ => poll_loop E fuel rid start T P result))) w
    else (Ret result, w).
Proof.
  change (poll_loop E (S fuel) rid start T P result w)
    with ((if Qlt_le_dec (now w - start) T
           then bind (get_status E rid) (fun result =>
                  bind (py_index result "status") (fun st =>
                    if negb (is_str st "pending") then ret result
                    else bind (time_sleep P)
                           (fun _ => poll_loop E fuel rid start T P result)))
           else ret result) w).
  by destruct (Qlt_le_dec (now w - start) T).
Qed.

Lemma py_index_status r st w w' :
  py_index r "status" w = (Ret st, w') ->
  w' = w /\ resolved r = negb (is_str st "pending").
Proof.
  destruct r as [| | | | |o]; simpl; try done.
  destruct (o !! "status") as [st'|]; [|done].
  unfold ret. by intros [= -> ->].
Qed.

Lemma py_index_world r k w : (py_index r k w).2 = w.
Proof.
  destruct r as [| | | | |o]; simpl; try done. by destruct (o !! k).
Qed.

(** The two loops take the same steps.  They part only when the time
    limit ends the loop: [poll_loop] keeps the snapshot it holds, and
    [wait_loop] fetches once more. *)
Lemma poll_loop_vs_wait_loop fuel : forall start result w,
  resolved result = false ->
  match poll_loop E fuel rid start T P result w with
  | (Ret res, w') =>
      if resolved res
      then wait_loop E fuel rid start T P w = (Ret res, w')
      else wait_loop E fuel rid start T P w = get_status E rid w'
  | (Raise e, w') => wait_loop E fuel rid start T P w = (Raise e, w')
  | (Diverge, w') => wait_loop E fuel rid start T P w = (Diverge, w')
  end.
Proof.
  induction fuel as [|fuel IH]; intros start result w Hres; [done|].
  rewrite poll_loop_S, wait_loop_S.
  destruct (Qlt_le_dec (now w - start) T) as [Hlt|Hge]; [|by rewrite Hres].
  unfold bind.
  destruct (get_status E rid w) as [[r|e|] w1]; [|done..].
  destruct (py_index r "status" w1) as [[st|e|] w2] eqn:Hst; [|done..].
  apply py_index_status in Hst as [-> Hr].
  destruct (negb (is_str st "pending")) eqn:Hnp.
  { unfold ret. by rewrite Hr. }
  destruct (time_sleep P w1) as [[[]|e|] w3]; [|done..].
  by apply IH.
Qed.

End Simulation.

(** C4, at a failing input: timeout 1, poll_interval 1, a create response
    that is pending, and a backend that answers the first status fetch
    with pending and every later one with approved.  The polling phase of
    [execute_api_call] sleeps through the time limit and stops after that
    one fetch, still holding the pending snapshot, so the call raises
    [VaultExecutionError] for status pending; [wait_for_result], entered
    at the same moment with the same timeout and poll interval, fetches a
    second time and returns the approved snapshot.  The loop of
    [execute_api_call] lacks the final status check that
    [wait_for_result] makes after its loop. *)
Theorem execute_api_call_misses_final_check :
  let snapshot st := JObj (<["status" := JStr st]> {["id" := JStr "act_1"]}) in
  let E := mkEnv (fun n _ =>
                    Resp (mkResponse 200 ""
                            (Some (snapshot (if (n <? 2)%nat then "pending"
                                             else "approved")))))
                 (fun _ => 0%Q) in
  let a := SynAuthClient.mkVaultArgs "openai" "GET"
             "https://api.openai.com/v1/models" None None None
             (Some (1 # 1)%Q) (Some (1 # 1)%Q) in
  let w := mkWorld 0%Q [] in
  let created := (SynAuthClient._request E "POST" Actions
                    (Some (SynAuthClient.vault_payload a)) w).2 in
  let phase := SynAuthClient.poll_phase E 5 (JStr "act_1") (1 # 1) (1 # 1)
                 (snapshot "pending") created in
  let wait := SynAuthClient.wait_for_result E 5 (JStr "act_1")
                (Some (1 # 1)%Q) (Some (1 # 1)%Q) created in
  let call := SynAuthClient.execute_api_call E 5 a w in
  phase.1 = Ret (snapshot "pending") /\
  calls phase.2 = (calls created + 1)%nat /\
  wait.1 = Ret (snapshot "approved") /\
  calls wait.2 = (calls created + 2)%nat /\
  call.1 = Raise (VaultExecutionError
                    (UnexpectedStatus (JStr "pending") (JStr "act_1"))) /\
  call.2 = phase.2.
Proof. vm_compute. repeat split; reflexivity. Qed.

(** Up to the time limit the two loops agree.  When the create-action
    response is pending, the polling phase of [execute_api_call] and
    [wait_for_result] with the same timeout and poll_interval take the
    same steps from the same world: if a fetch inside the time limit is
    not pending, both end in the same world (the same fetches) holding
    that snapshot, and both fail alike when a fetch fails.  If the time
    limit ends the loop, the polling phase stops there with the snapshot
    it holds, and [wait_for_result] returns the result of one more
    fetch. *)
Lemma poll_phase_vs_wait_for_result (E : env) (fuel : nat) (rid : json)
    (T P : Q) (result : json) (w : world) :
  has_status result "pending" ->
  match SynAuthClient.poll_phase E fuel rid T P result w with
  | (Ret res, w') =>
      if resolved res
      then SynAuthClient.wait_for_result E fuel rid (Some T) (Some P) w
           = (Ret res, w')
      else SynAuthClient.wait_for_result E fuel rid (Some T) (Some P) w
           = SynAuthClient.get_status E rid w'
  | (Raise e, w') =>
      SynAuthClient.wait_for_result E fuel rid (Some T) (Some P) w
      = (Raise e, w')
  | (Diverge, w') =>
      SynAuthClient.wait_for_result E fuel rid (Some T) (Some P) w
      = (Diverge, w')
  end.
Proof.
  intros (o & -> & Ho). rewrite wait_for_result_unfold.
  unfold SynAuthClient.poll_phase, bind, py_get, ret. rewrite Ho. simpl.
  unfold time_time.
  apply poll_loop_vs_wait_loop. simpl. by rewrite Ho.
Qed.

(** ** Outcomes of [execute_api_call] (C2) *)

Section Outcomes.
Import SynAuthClient.
Variable E : env.

Local Arguments poll_loop : simpl never.

Lemma _request_gives meth p payload w r j :
  respond E (calls w) (mkRequest meth p payload) = Resp r ->
  (status_code r =? 429) = false -> ok r = true -> parsed r = Some j ->
  _request E meth p payload w
  = (Ret j, {| now := (now w + latency E (calls w))%Q;
               sent := (now w, mkRequest meth p payload) :: sent w |}).
Proof.
  intros Hr H429 Hok Hj. unfold _request, bind, session_request.
  rewrite Hr. simpl. by rewrite H429, Hok, Hj.
Qed.

Lemma _request_now meth p payload w :
  now (_request E meth p payload w).2 = (now w + latency E (calls w))%Q.
Proof.
  unfold _request, bind, session_request.
  destruct (respond E (calls w) _) as [r|]; simpl; [|done].
  destruct (status_code r =? 429); [done|].
  destruct (negb (ok r)); [|by destruct (parsed r)].
  destruct (parsed r) as [[]|]; done.
Qed.

Lemma _request_returns meth p payload w :
  (_request E meth p payload w).1 <> Diverge.
Proof.
  unfold _request, bind, session_request.
  destruct (respond E (calls w) _) as [r|]; simpl; [|done].
  destruct (status_code r =? 429); [done|].
  destruct (negb (ok r)); [|by destruct (parsed r)].
  destruct (parsed r) as [[]|]; done.
Qed.

Lemma py_get_world d k w : (py_get d k w).2 = w.
Proof. by destruct d. Qed.

Lemma py_get_returns d k w : (py_get d k w).1 <> Diverge.
Proof. by destruct d. Qed.

Lemma py_index_returns d k w : (py_index d k w).1 <> Diverge.
Proof. destruct d; simpl; try done. by destruct (m !! k). Qed.

(** Whatever the polling loop ends with is a JSON object, if it started
    with one. *)
Lemma poll_loop_object rid T P fuel : forall start o w res w',
  poll_loop E fuel rid start T P (JObj o) w = (Ret res, w') ->
  exists o', res = JObj o'.
Proof.
  induction fuel as [|fuel IH]; intros start o w res w'; [done|].
  rewrite poll_loop_S.
  destruct (Qlt_le_dec (now w - start) T) as [Hlt|Hge];
    [|intros [= <- _]; by eexists].
  unfold bind.
  destruct (get_status E rid w) as [[r|e|] w1]; [|done..].
  destruct (py_index r "status" w1) as [[st|e|] w2] eqn:Hst; [|done..].
  assert (exists o1, r = JObj o1) as [o1 ->].
  { destruct r; try done. by eexists. }
  destruct (negb (is_str st "pending")).
  { intros [= <- _]. by eexists. }
  destruct (time_sleep P w2) as [[[]|e|] w3]; [|done..].
  apply IH.
Qed.

Lemma poll_phase_object rid T P fuel o w res w' :
  poll_phase E fuel rid T P (JObj o) w = (Ret res, w') ->
  exists o', res = JObj o'.
Proof.
  unfold poll_phase, bind. simpl.
  destruct (is_str (default JNull (o !! "status")) "pending").
  - unfold time_time. apply poll_loop_object.
  - intros [= <- _]. by eexists.
Qed.

(** With a positive sleep the polling loop cannot run forever: [fuel]
    rounds of at least [P] seconds each exhaust what is left of the time
    limit. *)
Lemma poll_loop_returns rid T P :
  (0 < P)%Q -> (forall n, 0 <= latency E n)%Q ->
  forall fuel start result w,
    (T - (now w - start) <= inject_Z (Z.of_nat fuel) * P)%Q ->
    (poll_loop E (S fuel) rid start T P result w).1 <> Diverge.
Proof.
  intros HP Hlat. induction fuel as [|fuel IH]; intros start result w Hleft;
    rewrite poll_loop_S;
    (destruct (Qlt_le_dec (now w - start) T) as [Hlt|Hge]; [|done]).
  { exfalso. change (inject_Z (Z.of_nat 0)) with 0%Q in Hleft. lra. }
  unfold bind.
  pose proof (_request_now "GET" (Action rid) None w) as Hnow.
  pose proof (_request_returns "GET" (Action rid) None w) as Hret.
  fold (get_status E rid) in Hnow, Hret.
  destruct (get_status E rid w) as [[r|e|] w1]; [|done..].
  simpl in Hnow.
  pose proof (py_index_world r "status" w1) as Hw.
  pose proof (py_index_returns r "status" w1) as Hret2.
  destruct (py_index r "status" w1) as [[st|e|] w2]; [|done..].
  simpl in Hw. subst w2.
  destruct (negb (is_str st "pending")); [done|].
  unfold time_sleep.
  destruct (Qlt_le_dec P 0) as [|_]; [done|].
  apply IH. simpl. rewrite Hnow.
  pose proof (Hlat (calls w)) as Hl.
  rewrite Nat2Z.inj_succ in Hleft. unfold Z.succ in Hleft.
  rewrite inject_Z_plus in Hleft. change (inject_Z 1) with 1%Q in Hleft.
  set (x := inject_Z (Z.of_nat fuel)) in *.
  lra.
Qed.

Lemma finish_call_returns rid result w :
  (finish_call E rid result w).1 <> Diverge.
Proof.
  unfold finish_call, bind.
  destruct result; simpl; try done.
  destruct (is_str _ "expired"); [done|].
  destruct (is_str _ "denied"); [done|].
  destruct (negb (is_str _ "approved")); [done|].
  apply _request_returns.
Qed.

Lemma execute_api_call_returns a w :
  (0 < default (3 # 1) (v_poll_interval a))%Q ->
  (forall n, 0 <= latency E n)%Q ->
  exists fuel0, forall fuel, (fuel0 <= fuel)%nat ->
    (execute_api_call E fuel a w).1 <> Diverge.
Proof.
  intros HP Hlat.
  destruct (archimedean (default (120 # 1) (v_timeout a)) _ HP) as [N HN].
  exists (S N). intros fuel Hfuel.
  destruct fuel as [|fuel]; [lia|].
  unfold execute_api_call, bind.
  pose proof (_request_returns "POST" Actions (Some (vault_payload a)) w)
    as Hret.
  destruct (_request E "POST" Actions _ w) as [[result|e|] w1]; [|done..].
  destruct result as [| | | | |o]; simpl; try done.
  destruct (is_str (default JNull (o !! "status")) "denied").
  { destruct (o !! "id"); simpl; done. }
  destruct (o !! "id") as [rid|]; simpl; [|done].
  unfold poll_phase, bind. simpl.
  destruct (is_str (default JNull (o !! "status")) "pending") eqn:Hpend.
  - unfold time_time.
    pose proof (poll_loop_returns rid (default (120 # 1) (v_timeout a))
                  (default (3 # 1) (v_poll_interval a)) HP Hlat fuel
                  (now w1) (JObj o) w1) as Hloop.
    destruct (poll_loop E (S fuel) rid (now w1) _ _ (JObj o) w1)
      as [[res|e|] w2]; [apply finish_call_returns|done|].
    exfalso. apply Hloop; [|done].
    assert (inject_Z (Z.of_nat N) <= inject_Z (Z.of_nat fuel))%Q as Hm.
    { rewrite <- Zle_Qle. lia. }
    assert (inject_Z (Z.of_nat N) * default (3 # 1) (v_poll_interval a)
            <= inject_Z (Z.of_nat fuel) * default (3 # 1) (v_poll_interval a))%Q.
    { apply Qmult_le_compat_r; [done|by apply Qlt_le_weak]. }
    lra.
  - apply finish_call_returns.
Qed.

End Outcomes.

Section OutcomeMapping.
Import SynAuthClient.
Variable E : env.

Local Arguments poll_loop : simpl never.

Lemma py_get_object o k w :
  py_get (JObj o) k w = (Ret (default JNull (o !! k)), w).
Proof. reflexivity. Qed.

Lemma py_index_object o k v w :
  o !! k = Some v -> py_index (JObj o) k w = (Ret v, w).
Proof. intros H. simpl. by rewrite H. Qed.

Lemma is_str_other st a b :
  is_str st a = true -> a <> b -> is_str st b = false.
Proof.
  destruct st; simpl; try done.
  intros ->%String.eqb_eq Hne. by apply String.eqb_neq.
Qed.

(** What [finish_call] does with the snapshot left by the wait phase. *)
Lemma finish_call_object rid o w :
  let st := default JNull (o !! "status") in
  (is_str st "expired" = true ->
     finish_call E rid (JObj o) w = (Raise (ActionExpiredError rid), w)) /\
  (is_str st "denied" = true ->
     finish_call E rid (JObj o) w
     = (Raise (ActionDeniedError rid (default JNull (o !! "deny_reason"))),
        w)) /\
  (is_str st "approved" = true ->
     finish_call E rid (JObj o) w
     = _request E "POST" (VaultExecute rid) None w) /\
  (is_str st "expired" = false -> is_str st "denied" = false ->
   is_str st "approved" = false ->
     finish_call E rid (JObj o) w
     = (Raise (VaultExecutionError (UnexpectedStatus st rid)), w)).
Proof.
  intros st. unfold finish_call, bind. simpl. fold st.
  repeat split.
  - by intros ->.
  - intros H. rewrite (is_str_other st "denied" "expired" H) by done.
    by rewrite H.
  - intros H. rewrite (is_str_other st "approved" "expired" H) by done.
    rewrite (is_str_other st "approved" "denied" H) by done.
    by rewrite H.
  - by intros -> -> ->.
Qed.

End OutcomeMapping.

(** C2: for a create-action response that is a JSON object with an id.
    Status denied at once raises [ActionDeniedError] with the id and the
    deny reason, and the create call stays the only request.  Otherwise,
    for the snapshot the wait phase ends with: expired raises
    [ActionExpiredError], denied raises [ActionDeniedError] with the reason,
    approved issues exactly one more request, POST /vault/execute/{id},
    whose outcome is the outcome of the call, and any other status raises
    [VaultExecutionError] naming that status, none of the three failures
    sending anything further.  The wait phase is skipped unless the create
    status is pending, and with a positive poll interval the call does
    return. *)
Theorem execute_api_call_outcomes (E : env) (fuel : nat)
    (a : SynAuthClient.vault_args) (w : world) (r : response)
    (o : gmap string json) (rid : json) :
  let create := mkRequest "POST" Actions
                  (Some (SynAuthClient.vault_payload a)) in
  let w1 := {| now := (now w + latency E (calls w))%Q;
               sent := (now w, create) :: sent w |} in
  let T := default (120 # 1) (SynAuthClient.v_timeout a) in
  let P := default (3 # 1) (SynAuthClient.v_poll_interval a) in
  let st0 := default JNull (o !! "status") in
  let run := SynAuthClient.execute_api_call E fuel a w in
  respond E (calls w) create = Resp r ->
  (status_code r =? 429) = false ->
  SynAuthClient.ok r = true ->
  parsed r = Some (JObj o) ->
  o !! "id" = Some rid ->
  (is_str st0 "denied" = true ->
     run = (Raise (ActionDeniedError rid
                     (default JNull (o !! "deny_reason"))), w1)) /\
  (is_str st0 "denied" = false ->
   forall res w2,
     SynAuthClient.poll_phase E fuel rid T P (JObj o) w1 = (Ret res, w2) ->
     exists o',
       res = JObj o' /\
       let st := default JNull (o' !! "status") in
       (is_str st "expired" = true ->
          run = (Raise (ActionExpiredError rid), w2)) /\
       (is_str st "denied" = true ->
          run = (Raise (ActionDeniedError rid
                          (default JNull (o' !! "deny_reason"))), w2)) /\
       (is_str st "approved" = true ->
          run = SynAuthClient._request E "POST" (VaultExecute rid) None w2 /\
          sent run.2
          = (now w2, mkRequest "POST" (VaultExecute rid) None) :: sent w2) /\
       (is_str st "expired" = false -> is_str st "denied" = false ->
        is_str st "approved" = false ->
          run = (Raise (VaultExecutionError (UnexpectedStatus st rid)),
                 w2))) /\
  (is_str st0 "pending" = false ->
     forall fuel',
       SynAuthClient.poll_phase E fuel' rid T P (JObj o) w1
       = (Ret (JObj o), w1)) /\
  ((0 < P)%Q -> (forall n, 0 <= latency E n)%Q ->
   exists fuel0, forall fuel', (fuel0 <= fuel')%nat ->
     (SynAuthClient.execute_api_call E fuel' a w).1 <> Diverge).
Proof.
  intros create w1 T P st0 run Hr H429 Hok Hp Hid.
  assert (SynAuthClient._request E "POST" Actions
            (Some (SynAuthClient.vault_payload a)) w = (Ret (JObj o), w1))
    as Hcreate by (by apply (_request_gives E _ _ _ w r)).
  assert (run
          = (if is_str st0 "denied"
             then (Raise (ActionDeniedError rid
                            (default JNull (o !! "deny_reason"))), w1)
             else bind (SynAuthClient.poll_phase E fuel rid T P (JObj o))
                    (SynAuthClient.finish_call E rid) w1)) as Hrun.
  { subst run. unfold SynAuthClient.execute_api_call.
    erewrite bind_ret by exact Hcreate.
    erewrite bind_ret by apply py_get_object. fold st0.
    destruct (is_str st0 "denied").
    - erewrite bind_ret by (by apply py_index_object).
      by erewrite bind_ret by apply py_get_object.
    - by erewrite bind_ret by (by apply py_index_object). }
  split; [|split; [|split]].
  - intros Hden. by rewrite Hrun, Hden.
  - intros Hden res w2 Hphase. rewrite Hrun, Hden.
    erewrite bind_ret by exact Hphase.
    destruct (poll_phase_object E rid T P fuel o w1 res w2 Hphase)
      as [o' ->].
    exists o'. split; [done|]. intros st.
    destruct (finish_call_object E rid o' w2) as (He & Hd & Ha & Hu).
    split; [done|]. split; [done|]. split; [|done].
    intros Happ. rewrite (Ha Happ). split; [done|]. apply _request_sent.
  - intros Hpend fuel'. unfold SynAuthClient.poll_phase.
    erewrite bind_ret by apply py_get_object. fold st0. by rewrite Hpend.
  - apply execute_api_call_returns.
Qed.

Lemma execute_api_call_outcomes_witness :
  let create := mkResponse 200 "{...}"
                  (Some (JObj (<["deny_reason" := JStr "over limit"]>
                              (<["status" := JStr "denied"]>
                              {["id" := JStr "act_1"]})))) in
  let E := mkEnv (fun _ _ => Resp create) (fun _ => 0%Q) in
  let a := SynAuthClient.mkVaultArgs "openai" "POST"
             "https://api.openai.com/v1/chat/completions" None None None
             None None in
  let run := SynAuthClient.execute_api_call E 0 a (mkWorld 0%Q []) in
  run.1 = Raise (ActionDeniedError (JStr "act_1") (JStr "over limit")) /\
  length (sent run.2) = 1%nat.
Proof.
  intros create E a run.
  destruct (execute_api_call_outcomes E 0 a (mkWorld 0%Q []) create
              (<["deny_reason" := JStr "over limit"]>
              (<["status" := JStr "denied"]> {["id" := JStr "act_1"]}))
              (JStr "act_1") eq_refl eq_refl eq_refl eq_refl eq_refl)
    as (Hden & _).
  subst run. rewrite (Hden eq_refl). split; reflexivity.
Defined.

(** ** The content fingerprint (C5) *)

Section FingerprintFacts.
Import Fingerprint.

Global Instance key_le_dec : RelDecision key_le.
Proof. intros x y. unfold key_le. apply _. Defined.

Global Instance key_le_trans : Transitive key_le.
Proof. intros x y z. unfold key_le. apply transitivity. Qed.

Global Instance key_le_total : Total key_le.
Proof. intros x y. unfold key_le. apply total, _. Qed.

Lemma dict_set_fresh k v d :
  k ∉ d.*1 -> dict_set k v d = (d ++ [(k, v)])%list.
Proof.
  induction d as [|[k' v'] d IH]; simpl; [done|].
  intros Hk. apply not_elem_of_cons in Hk as [Hne Hk].
  rewrite decide_False by done. by rewrite IH.
Qed.

Lemma dict_of_fresh items : forall acc,
  NoDup ((acc ++ items)%list).*1 ->
  foldl (fun d kv => dict_set kv.1 kv.2 d) acc items = (acc ++ items)%list.
Proof.
  induction items as [|[k v] items IH]; intros acc Hnd; simpl.
  { by rewrite app_nil_r. }
  rewrite dict_set_fresh.
  - rewrite IH; rewrite <- (assoc_L (++)); done.
  - rewrite fmap_app in Hnd. apply NoDup_app in Hnd as (_ & Hdisj & _).
    intros Hin. apply (Hdisj k Hin). simpl. left.
Qed.

(** Inserting pairwise distinct keys into an empty dictionary keeps them in
    insertion order. *)
Lemma dict_of_NoDup items : NoDup items.*1 -> dict_of items = items.
Proof. intros H. unfold dict_of. by rewrite dict_of_fresh. Qed.

Lemma NoDup_keys_value (l : list (string * json)) k v1 v2 :
  NoDup l.*1 -> (k, v1) ∈ l -> (k, v2) ∈ l -> v1 = v2.
Proof.
  induction l as [|[k' v'] l IH]; intros Hnd H1 H2.
  { by apply elem_of_nil in H1. }
  simpl in Hnd. apply NoDup_cons in Hnd as [Hk' Hnd].
  apply elem_of_cons in H1 as [H1|H1], H2 as [H2|H2]; simplify_eq.
  - done.
  - exfalso. apply Hk'. by apply (list_elem_of_fmap_2 fst _ (k', v2)).
  - exfalso. apply Hk'. by apply (list_elem_of_fmap_2 fst _ (k', v1)).
  - by apply IH.
Qed.

(** Two item lists with the same pairs and no repeated key have the same
    canonical order. *)
Lemma canonical_unique p1 p2 :
  NoDup p1.*1 -> p1 ≡ₚ p2 -> canonical p1 = canonical p2.
Proof.
  intros Hnd Hperm. unfold canonical.
  apply (Sorted_unique_strong key_le).
  - intros [k1 v1] [k2 v2] H1 H2 H12 H21.
    rewrite merge_sort_Permutation in H1, H2. rewrite <- Hperm in H2.
    unfold key_le in H12, H21. simpl in *.
    assert (k1 = k2) as -> by (by apply (anti_symm String.le)).
    f_equal. by apply (NoDup_keys_value p1 k2).
  - apply Sorted_merge_sort, _.
  - apply Sorted_merge_sort, _.
  - by rewrite !merge_sort_Permutation.
Qed.

End FingerprintFacts.

(** C5: the fingerprint depends only on the key/value pairs of the
    parameter mapping, not on the order in which they were inserted: two
    dictionaries built from the same pairs in different orders have the
    same fingerprint, and the fingerprint computed by the client equals the
    one the backend derives from the same pairs. *)
Theorem compute_content_hash_order_independent
    (serialize : list (string * json) -> string) (digest : string -> string)
    (items1 items2 : list (string * json)) :
  NoDup items1.*1 ->
  items1 ≡ₚ items2 ->
  Fingerprint.compute_content_hash serialize digest
    (Fingerprint.dict_of items1)
  = Fingerprint.compute_content_hash serialize digest
      (Fingerprint.dict_of items2) /\
  Fingerprint.compute_content_hash serialize digest
    (Fingerprint.dict_of items1)
  = Fingerprint.backend_content_hash serialize digest
      (Fingerprint.dict_of items2).
Proof.
  intros Hnd Hperm.
  assert (NoDup items2.*1) as Hnd2 by (by rewrite <- Hperm).
  rewrite !dict_of_NoDup by done.
  unfold Fingerprint.compute_content_hash, Fingerprint.backend_content_hash.
  by rewrite (canonical_unique items1 items2).
Qed.

Lemma compute_content_hash_order_independent_witness :
  let serialize (l : list (string * json)) :=
    String.concat "," (map fst l) in
  let digest (s : string) := s in
  Fingerprint.compute_content_hash serialize digest
    (Fingerprint.dict_of [("ticker", JStr "NVDA"); ("side", JStr "buy")])
  = Fingerprint.compute_content_hash serialize digest
      (Fingerprint.dict_of [("side", JStr "buy"); ("ticker", JStr "NVDA")]).
Proof.
  intros serialize digest.
  refine (proj1 (compute_content_hash_order_independent serialize digest
                   [("ticker", JStr "NVDA"); ("side", JStr "buy")]
                   [("side", JStr "buy"); ("ticker", JStr "NVDA")] _ _)).
  - apply (bool_decide_unpack _). vm_compute. reflexivity.
  - apply perm_swap.
Defined.

(** * Further properties of the client *)

(** ** The request layer *)

(** X2: an error status (400 to 599, not 429) whose body is JSON but not
    an object leaves [_request] as [AttributeError], not as an API
    failure: the [.get] on the parsed body fails and the [except] clause
    names only [ValueError] and [KeyError]. *)
Theorem _request_error_body_not_object (E : env) (meth : string)
    (p : endpoint) (payload : option (gmap string json)) (w : world)
    (r : response) (j : json) :
  respond E (calls w) (mkRequest meth p payload) = Resp r ->
  status_code r <> 429 -> 400 <= status_code r < 600 ->
  parsed r = Some j -> (forall o, j <> JObj o) ->
  (SynAuthClient._request E meth p payload w).1 = Raise AttributeError /\
  is_api_error AttributeError = false.
Proof.
  intros Hr Hne Hrange Hj Hobj. split; [|done].
  unfold SynAuthClient._request, bind, SynAuthClient.session_request.
  rewrite Hr. simpl. unfold SynAuthClient.ok.
  destruct (Z.eqb_spec (status_code r) 429) as [?|_]; [done|].
  replace (400 <=? status_code r) with true by (symmetry; lia).
  replace (status_code r <? 600) with true by (symmetry; lia). simpl.
  rewrite Hj. destruct j; try done. by destruct (Hobj m).
Qed.

Lemma _request_error_body_not_object_witness :
  let r := mkResponse 502 "null" (Some JNull) in
  let E := mkEnv (fun _ _ => Resp r) (fun _ => 0%Q) in
  (SynAuthClient._request E "GET" (Action (JStr "act_1")) None
     (mkWorld 0%Q [])).1 = Raise AttributeError.
Proof.
  intros r E.
  refine (proj1 (_request_error_body_not_object E "GET"
                   (Action (JStr "act_1")) None (mkWorld 0%Q []) r JNull
                   eq_refl _ _ eq_refl _)).
  - simpl. lia.
  - simpl. lia.
  - intros o. discriminate.
Defined.

(** X3: a reply that [requests] counts as ok but whose body is not JSON
    (a 204 with an empty body, say) makes [_request] raise [ValueError]
    from [resp.json()]; a 2xx status alone does not make the call
    succeed. *)
Theorem _request_ok_body_not_json (E : env) (meth : string) (p : endpoint)
    (payload : option (gmap string json)) (w : world) (r : response) :
  respond E (calls w) (mkRequest meth p payload) = Resp r ->
  status_code r < 400 \/ 600 <= status_code r ->
  parsed r = None ->
  (SynAuthClient._request E meth p payload w).1 = Raise ValueError.
Proof.
  intros Hr Hrange Hj.
  unfold SynAuthClient._request, bind, SynAuthClient.session_request.
  rewrite Hr. simpl. unfold SynAuthClient.ok.
  destruct (Z.eqb_spec (status_code r) 429) as [?|_]; [lia|].
  destruct Hrange.
  - replace (400 <=? status_code r) with false by (symmetry; lia).
    simpl. by rewrite Hj.
  - replace (status_code r <? 600) with false by (symmetry; lia).
    rewrite andb_false_r. simpl. by rewrite Hj.
Qed.

Lemma _request_ok_body_not_json_witness :
  let r := mkResponse 204 "" None in
  let E := mkEnv (fun _ _ => Resp r) (fun _ => 0%Q) in
  (SynAuthClient._request E "GET" (Action (JStr "act_1")) None
     (mkWorld 0%Q [])).1 = Raise ValueError.
Proof.
  intros r E.
  refine (_request_ok_body_not_json E "GET" (Action (JStr "act_1")) None
            (mkWorld 0%Q []) r eq_refl _ eq_refl).
  left. simpl. lia.
Defined.

(** ** More on the polling loops *)

Section Rounds.
Import SynAuthClient.
Variable E : env.
Variable rid : json.
Variables T P : Q.

Local Arguments wait_loop : simpl never.
Local Arguments poll_loop : simpl never.

Lemma calls_after_rounds w k : calls (after_rounds E P rid w k) = (calls w + k)%nat.
Proof.
  unfold calls, after_rounds. simpl.
  rewrite length_app, fetches_length. lia.
Qed.

Lemma after_rounds_S w k :
  after_rounds E P rid
    {| now := (now w + latency E (calls w) + P)%Q;
       sent := (now w, status_request rid) :: sent w |} k
  = after_rounds E P rid w (S k).
Proof.
  unfold after_rounds. simpl. f_equal.
  change (calls {| now := (now w + latency E (calls w) + P)%Q;
                   sent := (now w, status_request rid) :: sent w |})
    with (S (calls w)).
  by rewrite <- (assoc_L (++)).
Qed.

(** One round that comes back pending inside the limit. *)
Lemma wait_loop_round fuel start w s :
  (0 <= P)%Q -> (now w - start < T)%Q ->
  fetch_gives E (calls w) rid s -> pending s = true ->
  wait_loop E (S fuel) rid start T P w
  = wait_loop E fuel rid start T P
      {| now := (now w + latency E (calls w) + P)%Q;
         sent := (now w, status_request rid) :: sent w |}.
Proof.
  intros HP Hlt Hs Hp. rewrite wait_loop_S.
  destruct (Qlt_le_dec (now w - start) T) as [_|Hge];
    [|exfalso; by apply (Qlt_not_le _ _ Hlt)].
  erewrite bind_ret by (by apply get_status_gives).
  destruct (py_index_pending s
              {| now := (now w + latency E (calls w))%Q;
                 sent := (now w, status_request rid) :: sent w |} Hp)
    as (st & Hst & Hpend).
  erewrite bind_ret by exact Hst. rewrite Hpend. cbn [negb].
  by erewrite bind_ret by (by apply time_sleep_nonneg).
Qed.

Lemma poll_loop_round fuel start result w s :
  (0 <= P)%Q -> (now w - start < T)%Q ->
  fetch_gives E (calls w) rid s -> pending s = true ->
  poll_loop E (S fuel) rid start T P result w
  = poll_loop E fuel rid start T P s
      {| now := (now w + latency E (calls w) + P)%Q;
         sent := (now w, status_request rid) :: sent w |}.
Proof.
  intros HP Hlt Hs Hp. rewrite poll_loop_S.
  destruct (Qlt_le_dec (now w - start) T) as [_|Hge];
    [|exfalso; by apply (Qlt_not_le _ _ Hlt)].
  erewrite bind_ret by (by apply get_status_gives).
  destruct (py_index_pending s
              {| now := (now w + latency E (calls w))%Q;
                 sent := (now w, status_request rid) :: sent w |} Hp)
    as (st & Hst & Hpend).
  erewrite bind_ret by exact Hst. rewrite Hpend. cbn [negb].
  by erewrite bind_ret by (by apply time_sleep_nonneg).
Qed.

(** [k] pending rounds inside the limit use up [k] units of fuel and lead
    to [after_rounds w k]. *)
Lemma wait_loop_skip k : forall fuel w start,
  (0 <= P)%Q ->
  (forall i, (i < k)%nat ->
     (poll_time E P (calls w) (now w) i - start < T)%Q /\
     exists si, fetch_gives E (calls w + i) rid si /\ pending si = true) ->
  wait_loop E (k + fuel) rid start T P w
  = wait_loop E fuel rid start T P (after_rounds E P rid w k).
Proof.
  induction k as [|k IH]; intros fuel w start HP Hbefore.
  { unfold after_rounds. simpl. by destruct w. }
  destruct (Hbefore 0%nat ltac:(lia)) as (Hlt0 & s0 & Hs0 & Hp0).
  simpl in Hlt0. rewrite Nat.add_0_r in Hs0.
  change (S k + fuel)%nat with (S (k + fuel)).
  rewrite (wait_loop_round _ _ _ s0) by done.
  rewrite IH; [by rewrite after_rounds_S|done|].
  intros i Hi. destruct (Hbefore (S i) ltac:(lia)) as (Hlt & si & Hsi & Hpi).
  split; [exact Hlt|]. exists si. split; [|done].
  change (calls {| now := (now w + latency E (calls w) + P)%Q;
                   sent := (now w, status_request rid) :: sent w |})
    with (S (calls w)).
  by replace (S (calls w) + i)%nat with (calls w + S i)%nat by lia.
Qed.

Lemma poll_loop_skip k : forall fuel w start result,
  (0 <= P)%Q -> pending result = true ->
  (forall i, (i < k)%nat ->
     (poll_time E P (calls w) (now w) i - start < T)%Q /\
     exists si, fetch_gives E (calls w + i) rid si /\ pending si = true) ->
  exists held,
    pending held = true /\
    poll_loop E (k + fuel) rid start T P result w
    = poll_loop E fuel rid start T P held (after_rounds E P rid w k).
Proof.
  induction k as [|k IH]; intros fuel w start result HP Hres Hbefore.
  { exists result. split; [done|]. unfold after_rounds. simpl.
    by destruct w. }
  destruct (Hbefore 0%nat ltac:(lia)) as (Hlt0 & s0 & Hs0 & Hp0).
  simpl in Hlt0. rewrite Nat.add_0_r in Hs0.
  change (S k + fuel)%nat with (S (k + fuel)).
  rewrite (poll_loop_round _ _ _ _ s0) by done.
  destruct (IH fuel
              {| now := (now w + latency E (calls w) + P)%Q;
                 sent := (now w, status_request rid) :: sent w |}
              start s0 HP Hp0) as (held & Hheld & Heq).
  - intros i Hi.
    destruct (Hbefore (S i) ltac:(lia)) as (Hlt & si & Hsi & Hpi).
    split; [exact Hlt|]. exists si. split; [|done].
    change (calls {| now := (now w + latency E (calls w) + P)%Q;
                     sent := (now w, status_request rid) :: sent w |})
      with (S (calls w)).
    by replace (S (calls w) + i)%nat with (calls w + S i)%nat by lia.
  - exists held. split; [done|]. by rewrite Heq, after_rounds_S.
Qed.

End Rounds.

(** ** Edge behaviour of [wait_for_result] *)

Section WaitEdges.
Import SynAuthClient.
Variable E : env.
Variable rid : json.

Local Arguments wait_loop : simpl never.

Lemma wait_loop_fetch_bound T P :
  (0 < P)%Q -> (forall m, 0 <= latency E m)%Q ->
  forall fuel n w start,
    (T - (now w - start) <= inject_Z (Z.of_nat n) * P)%Q ->
    (calls (wait_loop E fuel rid start T P w).2 <= calls w + n + 1)%nat.
Proof.
  intros HP Hlat. induction fuel as [|fuel IH]; intros n w start Hleft.
  { simpl. lia. }
  rewrite wait_loop_S.
  pose proof (_request_sent E "GET" (Action rid) None w) as Hsent.
  pose proof (_request_now E "GET" (Action rid) None w) as Hnow.
  fold (get_status E rid) in Hsent, Hnow.
  destruct (Qlt_le_dec (now w - start) T) as [Hlt|Hge].
  2:{ unfold calls. rewrite Hsent. simpl. lia. }
  destruct n as [|n].
  { exfalso. change (inject_Z (Z.of_nat 0)) with 0%Q in Hleft. lra. }
  unfold bind.
  destruct (get_status E rid w) as [[r|e|] w1]; simpl in Hsent, Hnow;
    [|unfold calls; simpl; rewrite Hsent; simpl; lia..].
  pose proof (py_index_world r "status" w1) as Hw.
  destruct (py_index r "status" w1) as [[st|e|] w2]; simpl in Hw; subst w2;
    [|unfold calls; simpl; rewrite Hsent; simpl; lia..].
  destruct (negb (is_str st "pending"));
    [unfold calls; simpl; rewrite Hsent; simpl; lia|].
  unfold time_sleep. destruct (Qlt_le_dec P 0) as [Hneg|_]; [lra|].
  set (w3 := {| now := (now w1 + P)%Q; sent := sent w1 |}).
  assert (calls w3 = S (calls w)) as Hc.
  { unfold calls, w3. simpl. by rewrite Hsent. }
  specialize (IH n w3 start). rewrite Hc in IH.
  assert (calls (wait_loop E fuel rid start T P w3).2
          <= S (calls w) + n + 1)%nat; [|lia].
  apply IH. unfold w3. simpl. rewrite Hnow.
  pose proof (Hlat (calls w)) as Hl.
  rewrite Nat2Z.inj_succ in Hleft. unfold Z.succ in Hleft.
  rewrite inject_Z_plus in Hleft. change (inject_Z 1) with 1%Q in Hleft.
  set (x := inject_Z (Z.of_nat n)) in *.
  lra.
Qed.

End WaitEdges.

(** X4: with a timeout that is zero or negative, [wait_for_result] is one
    single [get_status]: the loop body never runs, nothing sleeps, the
    poll interval is never looked at, and the snapshot comes back as it
    is. *)
Theorem wait_for_result_no_time (E : env) (fuel : nat) (rid : json) (T : Q)
    (poll_interval : option Q) (w : world) :
  (T <= 0)%Q ->
  SynAuthClient.wait_for_result E (S fuel) rid (Some T) poll_interval w
  = SynAuthClient.get_status E rid w.
Proof.
  intros HT. rewrite wait_for_result_unfold. simpl default.
  rewrite wait_loop_S.
  destruct (Qlt_le_dec (now w - now w) T) as [Hlt|_]; [|done].
  exfalso. lra.
Qed.

Lemma wait_for_result_no_time_witness :
  let E := mkEnv (fun _ _ => NetFail) (fun _ => 0%Q) in
  SynAuthClient.wait_for_result E 1 (JStr "act_1") (Some 0%Q)
    (Some (-1 # 1)%Q) (mkWorld 0%Q [])
  = SynAuthClient.get_status E (JStr "act_1") (mkWorld 0%Q []).
Proof.
  intros E.
  apply (wait_for_result_no_time E 0 (JStr "act_1") 0%Q).
  unfold Qle. simpl. lia.
Defined.

(** X5: after [k] pending rounds, a snapshot that has no status key raises
    [KeyError] when it is fetched inside the time limit, but is returned
    unexamined when it is the final check after the limit; either way it
    was the last fetch. *)
Theorem wait_for_result_missing_status (E : env) (rid : json) (T P : Q)
    (w : world) (k fuel : nat) (o : gmap string json) :
  let run :=
    SynAuthClient.wait_for_result E fuel rid (Some T) (Some P) w in
  let round := poll_time E P (calls w) (now w) in
  (0 <= P)%Q ->
  (forall i, (i < k)%nat ->
     (round i - now w < T)%Q /\
     exists si, fetch_gives E (calls w + i) rid si /\ pending si = true) ->
  fetch_gives E (calls w + k) rid (JObj o) ->
  o !! "status" = None ->
  (k < fuel)%nat ->
  ((round k - now w < T)%Q -> run.1 = Raise (KeyError "status")) /\
  ((T <= round k - now w)%Q -> run.1 = Ret (JObj o)) /\
  sent run.2
  = ((round k, status_request rid)
     :: fetches E P rid (calls w) (now w) k ++ sent w)%list.
Proof.
  intros run round HP Hbefore Hk Ho Hfuel. subst run round.
  rewrite wait_for_result_unfold. simpl default.
  replace fuel with (k + S (fuel - S k))%nat by lia.
  rewrite wait_loop_skip by done.
  rewrite wait_loop_S.
  rewrite <- (calls_after_rounds E rid P w k) in Hk.
  pose proof (get_status_gives E rid _ _ Hk) as Hget.
  change (now (after_rounds E P rid w k))
    with (poll_time E P (calls w) (now w) k) in *.
  destruct (Qlt_le_dec (poll_time E P (calls w) (now w) k - now w) T)
    as [Hlt|Hge].
  - erewrite bind_ret by exact Hget.
    unfold bind. simpl. rewrite Ho.
    split; [done|]. split; [|done].
    intros Hge. exfalso. by apply (Qlt_not_le _ _ Hlt).
  - rewrite Hget. split; [|done].
    intros Hlt. exfalso. by apply (Qlt_not_le _ _ Hlt).
Qed.

Lemma wait_for_result_missing_status_witness :
  let E := mkEnv (fun _ _ => Resp (mkResponse 200 "{}" (Some (JObj ∅))))
                 (fun _ => 0%Q) in
  (SynAuthClient.wait_for_result E 1 (JStr "act_1") (Some (1 # 1)%Q)
     (Some (1 # 1)%Q) (mkWorld 0%Q [])).1 = Raise (KeyError "status").
Proof.
  intros E.
  refine (proj1 (wait_for_result_missing_status E (JStr "act_1") (1 # 1)
                   (1 # 1) (mkWorld 0%Q []) 0 1 ∅ _ _ _ eq_refl _) _).
  - unfold Qle. simpl. lia.
  - intros i Hi. lia.
  - eexists. repeat split; reflexivity.
  - lia.
  - reflexivity.
Defined.

(** X6: a failure of any status fetch leaves [wait_for_result] at once and
    unchanged: after [k] pending rounds, if the next [get_status] raises,
    the call raises the same exception and that fetch was its last
    request. *)
Theorem wait_for_result_propagates (E : env) (rid : json) (T P : Q)
    (w : world) (k fuel : nat) (e : exn) :
  let run :=
    SynAuthClient.wait_for_result E fuel rid (Some T) (Some P) w in
  let round := poll_time E P (calls w) (now w) in
  (0 <= P)%Q ->
  (forall i, (i < k)%nat ->
     (round i - now w < T)%Q /\
     exists si, fetch_gives E (calls w + i) rid si /\ pending si = true) ->
  (SynAuthClient.get_status E rid (after_rounds E P rid w k)).1 = Raise e ->
  (k < fuel)%nat ->
  run.1 = Raise e /\
  sent run.2
  = ((round k, status_request rid)
     :: fetches E P rid (calls w) (now w) k ++ sent w)%list.
Proof.
  intros run round HP Hbefore Hraise Hfuel. subst run round.
  rewrite wait_for_result_unfold. simpl default.
  replace fuel with (k + S (fuel - S k))%nat by lia.
  rewrite wait_loop_skip by done.
  rewrite wait_loop_S.
  pose proof (_request_sent E "GET" (Action rid) None
                (after_rounds E P rid w k)) as Hsent.
  fold (SynAuthClient.get_status E rid) in Hsent.
  destruct (Qlt_le_dec (now (after_rounds E P rid w k) - now w) T);
    [|done].
  unfold bind.
  destruct (SynAuthClient.get_status E rid (after_rounds E P rid w k))
    as [[r|e'|] w1]; simpl in *; [done| |done].
  by injection Hraise as ->.
Qed.

Lemma wait_for_result_propagates_witness :
  let E := mkEnv (fun _ _ => Resp (mkResponse 500 "boom" None))
                 (fun _ => 0%Q) in
  (SynAuthClient.wait_for_result E 1 (JStr "act_1") (Some (1 # 1)%Q)
     (Some (1 # 1)%Q) (mkWorld 0%Q [])).1
  = Raise (SynAuthAPIError 500 (JStr "boom")).
Proof.
  intros E.
  refine (proj1 (wait_for_result_propagates E (JStr "act_1") (1 # 1) (1 # 1)
                   (mkWorld 0%Q []) 0 1 _ _ _ _ _)).
  - unfold Qle. simpl. lia.
  - intros i Hi. lia.
  - reflexivity.
  - lia.
Defined.

(** X7: a negative poll interval is not rejected up front: the first
    fetch is made, and only if it comes back pending inside the limit does
    [time.sleep] raise [ValueError], after exactly one request. *)
Theorem wait_for_result_negative_interval (E : env) (fuel : nat)
    (rid : json) (T P : Q) (w : world) (s : json) :
  (0 < T)%Q -> (P < 0)%Q ->
  fetch_gives E (calls w) rid s -> pending s = true ->
  SynAuthClient.wait_for_result E (S fuel) rid (Some T) (Some P) w
  = (Raise ValueError,
     {| now := (now w + latency E (calls w))%Q;
        sent := (now w, status_request rid) :: sent w |}).
Proof.
  intros HT HP Hs Hp. rewrite wait_for_result_unfold. simpl default.
  rewrite wait_loop_S.
  destruct (Qlt_le_dec (now w - now w) T) as [_|Hge]; [|exfalso; lra].
  erewrite bind_ret by (by apply get_status_gives).
  destruct (py_index_pending s
              {| now := (now w + latency E (calls w))%Q;
                 sent := (now w, status_request rid) :: sent w |} Hp)
    as (st & Hst & Hpend).
  erewrite bind_ret by exact Hst. rewrite Hpend. cbn [negb].
  unfold bind, time_sleep.
  destruct (Qlt_le_dec P 0) as [_|Hge]; [done|].
  exfalso. by apply (Qlt_not_le _ _ HP).
Qed.

Lemma wait_for_result_negative_interval_witness :
  let E := mkEnv (fun _ _ =>
                    Resp (mkResponse 200 ""
                            (Some (JObj {["status" := JStr "pending"]}))))
                 (fun _ => 0%Q) in
  (SynAuthClient.wait_for_result E 1 (JStr "act_1") (Some (1 # 1)%Q)
     (Some (-1 # 1)%Q) (mkWorld 0%Q [])).1 = Raise ValueError.
Proof.
  intros E.
  rewrite (wait_for_result_negative_interval E 0 (JStr "act_1") (1 # 1)
             (-1 # 1) (mkWorld 0%Q [])
             (JObj {["status" := JStr "pending"]})).
  - reflexivity.
  - reflexivity.
  - reflexivity.
  - eexists. repeat split; reflexivity.
  - reflexivity.
Defined.

(** X8: whatever the backend answers, [wait_for_result] with a positive
    poll interval makes at most [N + 1] requests, for any [N] with
    [N * poll_interval >= timeout] (151 for the defaults 300 and 2.0). *)
Theorem wait_for_result_request_bound (E : env) (fuel : nat) (rid : json)
    (T P : Q) (w : world) (N : nat) :
  (0 < P)%Q -> (forall m, 0 <= latency E m)%Q ->
  (T <= inject_Z (Z.of_nat N) * P)%Q ->
  (calls (SynAuthClient.wait_for_result E fuel rid (Some T) (Some P) w).2
   <= calls w + N + 1)%nat.
Proof.
  intros HP Hlat HN. rewrite wait_for_result_unfold. simpl default.
  apply wait_loop_fetch_bound; try done. lra.
Qed.

Lemma wait_for_result_request_bound_witness :
  let E := mkEnv (fun _ _ =>
                    Resp (mkResponse 200 ""
                            (Some (JObj {["status" := JStr "pending"]}))))
                 (fun _ => 0%Q) in
  (calls (SynAuthClient.wait_for_result E 500 (JStr "act_1")
            (Some (300 # 1)%Q) (Some (2 # 1)%Q) (mkWorld 0%Q [])).2
   <= 151)%nat.
Proof.
  intros E.
  refine (wait_for_result_request_bound E 500 (JStr "act_1") (300 # 1)
            (2 # 1) (mkWorld 0%Q []) 150 _ _ _).
  - reflexivity.
  - intros m. unfold Qle. simpl. lia.
  - unfold Qle. simpl. lia.
Defined.

(** ** Edge behaviour of [execute_api_call] *)

Section VaultEdges.
Import SynAuthClient.
Variable E : env.

Local Arguments poll_loop : simpl never.

Lemma is_str_true st s : is_str st s = true -> st = JStr s.
Proof. destruct st; simpl; try done. by intros ->%String.eqb_eq. Qed.

(** What is left of the call once the create request has come back with
    a JSON object that carries an id. *)
Lemma execute_api_call_after_create fuel a w r o rid :
  let create := mkRequest "POST" Actions (Some (vault_payload a)) in
  let w1 := {| now := (now w + latency E (calls w))%Q;
               sent := (now w, create) :: sent w |} in
  respond E (calls w) create = Resp r ->
  (status_code r =? 429) = false -> ok r = true ->
  parsed r = Some (JObj o) -> o !! "id" = Some rid ->
  execute_api_call E fuel a w
  = if is_str (default JNull (o !! "status")) "denied"
    then (Raise (ActionDeniedError rid
                   (default JNull (o !! "deny_reason"))), w1)
    else bind (poll_phase E fuel rid (default (120 # 1) (v_timeout a))
                 (default (3 # 1) (v_poll_interval a)) (JObj o))
           (finish_call E rid) w1.
Proof.
  intros create w1 Hr H429 Hok Hp Hid.
  unfold execute_api_call.
  erewrite bind_ret by (by apply (_request_gives E _ _ _ w r)).
  erewrite bind_ret by apply py_get_object.
  destruct (is_str (default JNull (o !! "status")) "denied").
  - erewrite bind_ret by (by apply py_index_object).
    by erewrite bind_ret by apply py_get_object.
  - by erewrite bind_ret by (by apply py_index_object).
Qed.

Lemma poll_phase_not_pending fuel rid T P o w :
  is_str (default JNull (o !! "status")) "pending" = false ->
  poll_phase E fuel rid T P (JObj o) w = (Ret (JObj o), w).
Proof.
  intros H. unfold poll_phase.
  erewrite bind_ret by apply py_get_object. by rewrite H.
Qed.

Lemma _request_ret_inv meth p payload w j w1 :
  _request E meth p payload w = (Ret j, w1) ->
  exists r, respond E (calls w) (mkRequest meth p payload) = Resp r /\
            parsed r = Some j.
Proof.
  unfold _request, bind, session_request.
  destruct (respond E (calls w) _) as [r|] eqn:Hr; simpl; [|done].
  destruct (status_code r =? 429); [done|].
  destruct (negb (ok r)); [by destruct (parsed r) as [[]|]|].
  destruct (parsed r) as [j'|] eqn:Hj; [|done].
  intros [= -> _]. by exists r.
Qed.

Lemma nth_request_new (w w' : world) x :
  sent w' = x :: sent w -> nth_request w' (calls w) = Some x.
Proof.
  intros H. unfold nth_request, calls. rewrite H. simpl.
  rewrite lookup_app_r by (by rewrite length_rev).
  by rewrite length_rev, Nat.sub_diag.
Qed.

Lemma nth_request_kept (w w' : world) rest n x :
  sent w' = (rest ++ sent w)%list ->
  nth_request w n = Some x -> nth_request w' n = Some x.
Proof.
  intros H Hn. unfold nth_request in *. rewrite H, rev_app_distr.
  by apply lookup_app_l_Some.
Qed.

(** The polling loop sends nothing but status fetches, and the snapshot it
    ends with is the one it was given or the body of the reply to one of
    its fetches. *)
Lemma poll_loop_provenance rid T P fuel : forall start result w,
  exists rest,
    sent (poll_loop E fuel rid start T P result w).2 = (rest ++ sent w)%list /\
    Forall (fun e => e.2 = status_request rid) rest /\
    forall res,
      (poll_loop E fuel rid start T P result w).1 = Ret res ->
      res = result \/
      exists n t r,
        (calls w <= n)%nat /\
        nth_request (poll_loop E fuel rid start T P result w).2 n
        = Some (t, status_request rid) /\
        respond E n (status_request rid) = Resp r /\
        parsed r = Some res.
Proof.
  induction fuel as [|fuel IH]; intros start result w.
  { exists []. by repeat split. }
  rewrite poll_loop_S.
  destruct (Qlt_le_dec (now w - start) T) as [Hlt|Hge].
  2:{ exists []. repeat split; [done|]. intros res [= <-]. by left. }
  pose proof (_request_sent E "GET" (Action rid) None w) as Hsent.
  fold (get_status E rid) in Hsent. fold (status_request rid) in Hsent.
  assert (Forall (fun e : Q * request => e.2 = status_request rid)
            [(now w, status_request rid)]) as Hone by (by repeat constructor).
  unfold bind.
  destruct (get_status E rid w) as [[r|e|] w1] eqn:Hget; simpl in Hsent;
    [|by exists [(now w, status_request rid)]..].
  apply _request_ret_inv in Hget as (rp & Hrp & Hparsed).
  pose proof (py_index_world r "status" w1) as Hw.
  destruct (py_index r "status" w1) as [[st|e|] w2]; simpl in Hw; subst w2;
    [|by exists [(now w, status_request rid)]..].
  destruct (negb (is_str st "pending")).
  { exists [(now w, status_request rid)]. repeat split; [done..|].
    intros res [= <-]. right. exists (calls w), (now w), rp.
    split; [done|]. split; [|done]. by apply (nth_request_new w). }
  unfold time_sleep. destruct (Qlt_le_dec P 0) as [|_];
    [by exists [(now w, status_request rid)]|].
  set (w3 := {| now := (now w1 + P)%Q; sent := sent w1 |}).
  destruct (IH start r w3) as (rest & Hrest & Hall & Hres).
  exists (rest ++ [(now w, status_request rid)])%list.
  split; [|split].
  - rewrite Hrest. simpl. rewrite Hsent. by rewrite <- (assoc_L (++)).
  - by apply Forall_app.
  - intros res Hout. right.
    destruct (Hres res Hout) as [->|(n & t & r' & Hn & Hnth & ?)].
    + exists (calls w), (now w), rp. split; [done|]. split; [|done].
      apply (nth_request_kept w3 _ rest); [done|].
      by apply (nth_request_new w).
    + exists n, t, r'. split; [|done].
      unfold calls in *. simpl in Hn. rewrite Hsent in Hn. simpl in Hn. lia.
Qed.

End VaultEdges.

(** X9: when the create response is already resolved, no status is ever
    fetched.  Status approved goes straight to the one
    POST /vault/execute/{id}; status expired raises [ActionExpiredError]
    with the create call as the only request.  Both hold with no fuel at
    all, that is, without entering the loop. *)
Theorem execute_api_call_immediate (E : env) (fuel : nat)
    (a : SynAuthClient.vault_args) (w : world) (r : response)
    (o : gmap string json) (rid : json) :
  let create := mkRequest "POST" Actions
                  (Some (SynAuthClient.vault_payload a)) in
  let w1 := {| now := (now w + latency E (calls w))%Q;
               sent := (now w, create) :: sent w |} in
  let run := SynAuthClient.execute_api_call E fuel a w in
  respond E (calls w) create = Resp r ->
  (status_code r =? 429) = false ->
  SynAuthClient.ok r = true ->
  parsed r = Some (JObj o) ->
  o !! "id" = Some rid ->
  (o !! "status" = Some (JStr "approved") ->
     run = SynAuthClient._request E "POST" (VaultExecute rid) None w1 /\
     sent run.2
     = (now w1, mkRequest "POST" (VaultExecute rid) None)
       :: (now w, create) :: sent w) /\
  (o !! "status" = Some (JStr "expired") ->
     run = (Raise (ActionExpiredError rid), w1)).
Proof.
  intros create w1 run Hr H429 Hok Hp Hid. subst run.
  rewrite (execute_api_call_after_create E fuel a w r o rid) by done.
  fold create w1.
  destruct (finish_call_object E rid o w1) as (He & _ & Ha & _).
  split; intros Hst; rewrite Hst in *; simpl in *.
  - erewrite bind_ret by (apply poll_phase_not_pending; by rewrite Hst).
    rewrite Ha by done. split; [done|]. by rewrite _request_sent.
  - erewrite bind_ret by (apply poll_phase_not_pending; by rewrite Hst).
    by rewrite He.
Qed.

Lemma execute_api_call_immediate_witness :
  let body := <["status" := JStr "expired"]> {["id" := JStr "act_1"]} in
  let E := mkEnv (fun _ _ => Resp (mkResponse 200 "{...}" (Some (JObj body))))
                 (fun _ => 0%Q) in
  let a := SynAuthClient.mkVaultArgs "openai" "GET"
             "https://api.openai.com/v1/models" None None None None None in
  (SynAuthClient.execute_api_call E 0 a (mkWorld 0%Q [])).1
  = Raise (ActionExpiredError (JStr "act_1")).
Proof.
  intros body E a.
  destruct (execute_api_call_immediate E 0 a (mkWorld 0%Q [])
              (mkResponse 200 "{...}" (Some (JObj body))) body (JStr "act_1")
              eq_refl eq_refl eq_refl eq_refl eq_refl) as [_ H].
  by rewrite (H eq_refl).
Defined.

(** X10: a create response without an id cannot be handled: whatever its
    status (denied and approved included) the call raises [KeyError] for
    "id" with the create call as its only request, and a response body
    that is not a JSON object raises [AttributeError]. *)
Theorem execute_api_call_malformed_create (E : env) (fuel : nat)
    (a : SynAuthClient.vault_args) (w : world) (r : response) (j : json) :
  let create := mkRequest "POST" Actions
                  (Some (SynAuthClient.vault_payload a)) in
  let w1 := {| now := (now w + latency E (calls w))%Q;
               sent := (now w, create) :: sent w |} in
  let run := SynAuthClient.execute_api_call E fuel a w in
  respond E (calls w) create = Resp r ->
  (status_code r =? 429) = false ->
  SynAuthClient.ok r = true ->
  parsed r = Some j ->
  (forall o, j = JObj o -> o !! "id" = None ->
     run = (Raise (KeyError "id"), w1)) /\
  ((forall o, j <> JObj o) -> run = (Raise AttributeError, w1)).
Proof.
  intros create w1 run Hr H429 Hok Hp. subst run.
  unfold SynAuthClient.execute_api_call.
  erewrite bind_ret by (by apply (_request_gives E _ _ _ w r)).
  fold create w1. split.
  - intros o -> Hid. erewrite bind_ret by apply py_get_object.
    unfold bind. simpl. rewrite Hid.
    by destruct (is_str (default JNull (o !! "status")) "denied").
  - intros Hobj. unfold bind. destruct j; try done. by destruct (Hobj m).
Qed.

Lemma execute_api_call_malformed_create_witness :
  let body : gmap string json := {["status" := JStr "approved"]} in
  let E := mkEnv (fun _ _ => Resp (mkResponse 200 "{...}" (Some (JObj body))))
                 (fun _ => 0%Q) in
  let a := SynAuthClient.mkVaultArgs "openai" "GET"
             "https://api.openai.com/v1/models" None None None None None in
  (SynAuthClient.execute_api_call E 0 a (mkWorld 0%Q [])).1
  = Raise (KeyError "id").
Proof.
  intros body E a.
  destruct (execute_api_call_malformed_create E 0 a (mkWorld 0%Q [])
              (mkResponse 200 "{...}" (Some (JObj body))) (JObj body)
              eq_refl eq_refl eq_refl eq_refl) as [H _].
  by rewrite (H body eq_refl eq_refl).
Defined.

(** X11: when the time limit passes while the action is still pending,
    [execute_api_call] raises [VaultExecutionError] for the unexpected
    status "pending": after [k] pending rounds inside the limit nothing
    more is sent, neither a last status check nor the vault call. *)
Theorem execute_api_call_timeout (E : env) (fuel k : nat)
    (a : SynAuthClient.vault_args) (w : world) (r : response)
    (o : gmap string json) (rid : json) :
  let create := mkRequest "POST" Actions
                  (Some (SynAuthClient.vault_payload a)) in
  let w1 := {| now := (now w + latency E (calls w))%Q;
               sent := (now w, create) :: sent w |} in
  let T := default (120 # 1) (SynAuthClient.v_timeout a) in
  let P := default (3 # 1) (SynAuthClient.v_poll_interval a) in
  let round := poll_time E P (calls w1) (now w1) in
  respond E (calls w) create = Resp r ->
  (status_code r =? 429) = false ->
  SynAuthClient.ok r = true ->
  parsed r = Some (JObj o) ->
  o !! "id" = Some rid ->
  o !! "status" = Some (JStr "pending") ->
  (0 <= P)%Q ->
  (forall i, (i < k)%nat ->
     (round i - now w1 < T)%Q /\
     exists si, fetch_gives E (calls w1 + i) rid si /\ pending si = true) ->
  (T <= round k - now w1)%Q ->
  (k < fuel)%nat ->
  SynAuthClient.execute_api_call E fuel a w
  = (Raise (VaultExecutionError (UnexpectedStatus (JStr "pending") rid)),
     after_rounds E P rid w1 k).
Proof.
  intros create w1 T P round Hr H429 Hok Hp Hid Hst HP Hbefore Hlimit Hfuel.
  rewrite (execute_api_call_after_create E fuel a w r o rid) by done.
  fold create w1 T P. rewrite Hst. simpl is_str. cbv iota.
  assert (SynAuthClient.poll_phase E fuel rid T P (JObj o) w1
          = SynAuthClient.poll_loop E fuel rid (now w1) T P (JObj o) w1)
    as Hphase.
  { unfold SynAuthClient.poll_phase.
    erewrite bind_ret by apply py_get_object. rewrite Hst. done. }
  replace fuel with (k + S (fuel - S k))%nat in Hphase |- * by lia.
  destruct (poll_loop_skip E rid T P k (S (fuel - S k)) w1 (now w1) (JObj o))
    as (held & Hheld & Hskip); [done|by (simpl; rewrite Hst)|done|].
  rewrite Hskip, poll_loop_S in Hphase.
  change (now (after_rounds E P rid w1 k)) with (round k) in Hphase.
  destruct (Qlt_le_dec (round k - now w1) T) as [Hlt|_];
    [exfalso; by apply (Qlt_not_le _ _ Hlt)|].
  erewrite bind_ret by exact Hphase.
  destruct held as [| | | | |o']; try done. simpl in Hheld.
  destruct (o' !! "status") as [st|] eqn:Hst'; [|done].
  apply is_str_true in Hheld as ->.
  destruct (finish_call_object E rid o' (after_rounds E P rid w1 k))
    as (_ & _ & _ & Hu).
  rewrite Hu; rewrite Hst'; done.
Qed.

Lemma execute_api_call_timeout_witness :
  let body := <["status" := JStr "pending"]> {["id" := JStr "act_1"]} in
  let E := mkEnv (fun _ _ => Resp (mkResponse 200 "{...}" (Some (JObj body))))
                 (fun _ => 0%Q) in
  let a := SynAuthClient.mkVaultArgs "openai" "GET"
             "https://api.openai.com/v1/models" None None None
             (Some (1 # 1)%Q) (Some (1 # 1)%Q) in
  (SynAuthClient.execute_api_call E 2 a (mkWorld 0%Q [])).1
  = Raise (VaultExecutionError
             (UnexpectedStatus (JStr "pending") (JStr "act_1"))).
Proof.
  intros body E a.
  rewrite (execute_api_call_timeout E 2 1 a (mkWorld 0%Q [])
             (mkResponse 200 "{...}" (Some (JObj body))) body (JStr "act_1")
             eq_refl eq_refl eq_refl eq_refl eq_refl eq_refl).
  - reflexivity.
  - unfold Qle. simpl. lia.
  - intros i Hi. replace i with 0%nat by lia. split; [reflexivity|].
    exists (JObj body). split; [|reflexivity].
    eexists. repeat split; reflexivity.
  - unfold Qle. simpl. lia.
  - lia.
Defined.

(** ** The vault call is made only for an approved action *)

Section OnlyApproved.
Import SynAuthClient.
Variable E : env.

Local Arguments poll_loop : simpl never.

Lemma poll_phase_provenance rid T P fuel result w :
  exists rest,
    sent (poll_phase E fuel rid T P result w).2 = (rest ++ sent w)%list /\
    Forall (fun e => e.2 = status_request rid) rest /\
    forall res,
      (poll_phase E fuel rid T P result w).1 = Ret res ->
      res = result \/
      exists n t r,
        (calls w <= n)%nat /\
        nth_request (poll_phase E fuel rid T P result w).2 n
        = Some (t, status_request rid) /\
        respond E n (status_request rid) = Resp r /\
        parsed r = Some res.
Proof.
  unfold poll_phase, bind.
  destruct result as [| | | | |o]; simpl;
    try (exists []; by repeat split).
  destruct (is_str (default JNull (o !! "status")) "pending").
  - apply poll_loop_provenance.
  - exists []. repeat split; [done|]. intros res [= <-]. by left.
Qed.

(** [finish_call] either sends nothing, or it saw status approved and sent
    the one vault request. *)
Lemma finish_call_sends rid res w :
  (finish_call E rid res w).2 = w \/
  exists o, res = JObj o /\ o !! "status" = Some (JStr "approved") /\
            sent (finish_call E rid res w).2
            = (now w, mkRequest "POST" (VaultExecute rid) None) :: sent w.
Proof.
  destruct res as [| | | | |o]; try by left.
  destruct (finish_call_object E rid o w) as (He & Hd & Ha & Hu).
  destruct (is_str (default JNull (o !! "status")) "expired") eqn:H1;
    [left; by rewrite He|].
  destruct (is_str (default JNull (o !! "status")) "denied") eqn:H2;
    [left; by rewrite Hd|].
  destruct (is_str (default JNull (o !! "status")) "approved") eqn:H3;
    [|left; by rewrite Hu].
  right. exists o. split; [done|]. split.
  - apply is_str_true in H3. destruct (o !! "status"); simpl in H3; by subst.
  - rewrite Ha by done. apply _request_sent.
Qed.

Lemma vault_request_not_status t rid rid' (rest : list (Q * request)) :
  Forall (fun e => e.2 = status_request rid') rest ->
  (t, mkRequest "POST" (VaultExecute rid) None) ∉ rest.
Proof.
  intros Hall Hin. rewrite Forall_forall in Hall.
  by specialize (Hall _ Hin).
Qed.

End OnlyApproved.

(** X12: [execute_api_call] issues a POST /vault/execute request only
    after the backend has answered one of this call's own requests with a
    JSON object whose status is approved; on every other path (failures,
    denial, expiry, time limit, running out of fuel) no such request is in
    the log. *)
Theorem execute_api_call_executes_only_approved (E : env) (fuel : nat)
    (a : SynAuthClient.vault_args) (w : world)
    (rest : list (Q * request)) (t : Q) (rid : json) :
  let run := SynAuthClient.execute_api_call E fuel a w in
  sent run.2 = (rest ++ sent w)%list ->
  (t, mkRequest "POST" (VaultExecute rid) None) ∈ rest ->
  exists n, (calls w <= n)%nat /\ reported_approved E run.2 n.
Proof.
  intros run.
  assert (run = SynAuthClient.execute_api_call E fuel a w) as Hrun by done.
  clearbody run.
  set (create := mkRequest "POST" Actions
                   (Some (SynAuthClient.vault_payload a))) in *.
  assert (forall w', sent w' = (now w, create) :: sent w ->
            sent w' = (rest ++ sent w)%list ->
            (t, mkRequest "POST" (VaultExecute rid) None) ∉ rest) as Honly.
  { intros w' H1 H2. rewrite H1 in H2.
    change ((now w, create) :: sent w)
      with ([(now w, create)] ++ sent w)%list in H2.
    apply app_inv_tail in H2 as <-. by intros ?%list_elem_of_singleton. }
  assert (forall rid' rest2 w',
            Forall (fun e => e.2 = status_request rid') rest2 ->
            sent w' = (rest2 ++ (now w, create) :: sent w)%list ->
            sent w' = (rest ++ sent w)%list ->
            (t, mkRequest "POST" (VaultExecute rid) None) ∉ rest) as Honly2.
  { intros rid' rest2 w' Hall H1 H2. rewrite H1 in H2.
    change (rest2 ++ (now w, create) :: sent w)%list
      with (rest2 ++ [(now w, create)] ++ sent w)%list in H2.
    rewrite (assoc_L (++)) in H2. apply app_inv_tail in H2 as <-.
    intros [Hin|Hin%list_elem_of_singleton]%elem_of_app; [|done].
    by destruct (vault_request_not_status t rid rid' rest2 Hall). }
  unfold SynAuthClient.execute_api_call in Hrun. fold create in Hrun.
  pose proof (_request_sent E "POST" Actions
                (Some (SynAuthClient.vault_payload a)) w) as Hsent1.
  fold create in Hsent1. unfold bind at 1 in Hrun.
  destruct (SynAuthClient._request E "POST" Actions _ w)
    as [[result|e|] w1] eqn:Hcreate; simpl in Hsent1;
    [|subst run; intros H Hin; by destruct (Honly w1 Hsent1 H)..].
  apply _request_ret_inv in Hcreate as (r0 & Hr0 & Hp0).
  fold create in Hr0.
  destruct result as [| | | | |o];
    try (subst run; intros H Hin; by destruct (Honly w1 Hsent1 H)).
  unfold bind at 1 in Hrun. simpl py_get in Hrun.
  unfold ret at 1 in Hrun. cbv iota beta in Hrun.
  destruct (is_str (default JNull (o !! "status")) "denied").
  { unfold bind in Hrun. simpl in Hrun.
    destruct (o !! "id"); subst run; intros H Hin;
      by destruct (Honly w1 Hsent1 H). }
  unfold bind at 1 in Hrun. simpl py_index in Hrun.
  destruct (o !! "id") as [rid0|];
    [|subst run; intros H Hin; by destruct (Honly w1 Hsent1 H)].
  unfold ret at 1 in Hrun. cbv iota beta in Hrun.
  set (T := default (120 # 1) (SynAuthClient.v_timeout a)) in *.
  set (P := default (3 # 1) (SynAuthClient.v_poll_interval a)) in *.
  destruct (poll_phase_provenance E rid0 T P fuel (JObj o) w1)
    as (rest2 & Hsent2 & Hall2 & Hres).
  rewrite Hsent1 in Hsent2.
  unfold bind in Hrun.
  destruct (SynAuthClient.poll_phase E fuel rid0 T P (JObj o) w1)
    as [[res|e|] w2]; simpl in Hsent2, Hres;
    [|subst run; intros H Hin;
      by destruct (Honly2 rid0 rest2 w2 Hall2 Hsent2 H)..].
  destruct (finish_call_sends E rid0 res w2) as [Hsame|(o' & -> & Hst & Hs3)].
  { subst run. rewrite Hsame. intros H Hin.
    by destruct (Honly2 rid0 rest2 w2 Hall2 Hsent2 H). }
  intros _ _. subst run.
  set (w3 := (SynAuthClient.finish_call E rid0 (JObj o') w2).2) in *.
  assert (sent w3 = ([(now w2, mkRequest "POST" (VaultExecute rid0) None)]
                     ++ sent w2)%list) as Hs3' by (by rewrite Hs3).
  assert (sent w2 = (rest2 ++ sent w1)%list) as Hs2'
    by (by rewrite Hsent2, Hsent1).
  destruct (Hres (JObj o') eq_refl)
    as [[= ->]|(n & t' & r & Hn & Hnth & Hr & Hp)].
  - exists (calls w). split; [done|].
    exists (now w), create, r0, o. split; [|done].
    apply (nth_request_kept w2 _ _ _ _ Hs3').
    apply (nth_request_kept w1 _ _ _ _ Hs2').
    by apply (nth_request_new w).
  - exists n. split.
    + unfold calls in *. rewrite Hsent1 in Hn. simpl in Hn. lia.
    + exists t', (status_request rid0), r, o'. split; [|done].
      by apply (nth_request_kept w2 _ _ _ _ Hs3').
Qed.

Lemma execute_api_call_executes_only_approved_witness :
  let body := <["status" := JStr "approved"]> {["id" := JStr "act_1"]} in
  let E := mkEnv (fun _ _ => Resp (mkResponse 200 "{...}" (Some (JObj body))))
                 (fun _ => 0%Q) in
  let a := SynAuthClient.mkVaultArgs "openai" "GET"
             "https://api.openai.com/v1/models" None None None None None in
  exists n,
    reported_approved E
      (SynAuthClient.execute_api_call E 0 a (mkWorld 0%Q [])).2 n.
Proof.
  intros body E a.
  destruct (execute_api_call_executes_only_approved E 0 a (mkWorld 0%Q [])
              (sent (SynAuthClient.execute_api_call E 0 a
                       (mkWorld 0%Q [])).2)
              0%Q (JStr "act_1")) as (n & _ & Hn).
  - vm_compute. reflexivity.
  - vm_compute. apply list_elem_of_here.
  - by exists n.
Defined.

(** ** Payloads of the payment client and of the vault request *)

(** X13: every payment request of [SynPayClient] carries the amount and a
    currency (USD unless the caller names one), is marked reversible with
    risk level medium and the default expiry of 300 seconds, none of which
    the payment client lets the caller change; the merchant is sent as
    recipient and the description as description, each only when it is
    not empty. *)
Theorem request_payment_payload (E : env) (w : world) (amount : Q)
    (merchant description : string) (currency : option string)
    (metadata : option (gmap string json)) :
  exists p,
    sent (SynPayClient.request_payment E amount merchant description
            currency metadata w).2
    = (now w, mkRequest "POST" Actions (Some p)) :: sent w /\
    p !! "amount" = Some (JNum amount) /\
    p !! "currency" = Some (JStr (default "USD" currency)) /\
    p !! "risk_level" = Some (JStr "medium") /\
    p !! "reversible" = Some (JBool true) /\
    p !! "expires_in_seconds" = Some (JNum (inject_Z 300)) /\
    p !! "title" = Some (JStr ("Purchase from " +:+ merchant)) /\
    p !! "recipient"
      = (if String.eqb merchant "" then None else Some (JStr merchant)) /\
    p !! "description"
      = (if String.eqb description "" then None
         else Some (JStr description)).
Proof.
  eexists. split; [apply _request_sent|].
  rewrite payload_amount, payload_currency, payload_recipient,
    payload_description.
  match goal with
  | |- context [SynAuthClient.request_action_payload ?x] =>
      destruct (payload_required x) as (_ & Ht & Hr & Hv & He)
  end.
  rewrite Ht, Hr, Hv, He. simpl.
  repeat split; try done.
  - by destruct (String.eqb merchant "").
  - by destruct (String.eqb description "").
Qed.

(** X14: the payload of the vault request has exactly the keys
    action_type, title, description, risk_level and metadata (so neither
    reversible nor expires_in_seconds is ever sent), and its metadata has
    exactly the six vault keys: a missing body is sent as an explicit null
    and missing headers as an empty object; the title falls back to
    "API call: METHOD URL" when the description is missing or empty. *)
Theorem vault_payload_shape (a : SynAuthClient.vault_args) :
  let p := SynAuthClient.vault_payload a in
  dom p = ({["action_type"; "title"; "description"; "risk_level";
            "metadata"]} : gset string) /\
  (exists md,
     p !! "metadata" = Some (JObj md) /\
     dom md = ({["vault_execute"; "service_name"; "method"; "url";
                 "headers"; "body"]} : gset string) /\
     (SynAuthClient.v_body a = None -> md !! "body" = Some JNull) /\
     (SynAuthClient.headers a = None -> md !! "headers" = Some (JObj ∅))) /\
  (truthy_str (SynAuthClient.v_description a) = false ->
     p !! "title"
     = Some (JStr ("API call: " +:+ SynAuthClient.v_method a +:+ " "
                   +:+ SynAuthClient.url a))) /\
  (forall d, SynAuthClient.v_description a = Some d -> d <> "" ->
     p !! "title" = Some (JStr d)).
Proof.
  intros p. subst p. unfold SynAuthClient.vault_payload.
  split; [|split; [|split]].
  - rewrite !dom_insert_L, dom_empty_L. set_solver.
  - eexists. split; [by simplify_map_eq|].
    split; [rewrite !dom_insert_L, dom_empty_L; set_solver|].
    split.
    + intros ->. by simplify_map_eq.
    + intros ->. by simplify_map_eq.
  - intros ->. by simplify_map_eq.
  - intros d -> Hd.
    assert (truthy_str (Some d) = true) as ->.
    { simpl. apply negb_true_iff. by apply String.eqb_neq. }
    by simplify_map_eq.
Qed.

Lemma vault_payload_shape_witness :
  let a := SynAuthClient.mkVaultArgs "openai" "GET"
             "https://api.openai.com/v1/models" None None (Some "") None
             None in
  SynAuthClient.vault_payload a !! "title"
  = Some (JStr "API call: GET https://api.openai.com/v1/models").
Proof.
  intros a.
  destruct (vault_payload_shape a) as (_ & _ & H & _).
  exact (H eq_refl).
Defined.

(** ** The base URL *)

Section BaseUrl.
Import SynAuthClientUrl.

Lemma app_nil_l_str (t : string) : "" +:+ t = t.
Proof. reflexivity. Qed.

Lemma app_cons_str c (s t : string) : String c s +:+ t = String c (s +:+ t).
Proof. reflexivity. Qed.

Lemma app_nil_r_str (s : string) : s +:+ "" = s.
Proof. induction s as [|c s IH]; [done|]. by rewrite app_cons_str, IH. Qed.

Lemma app_assoc_str (s t u : string) : (s +:+ t) +:+ u = s +:+ (t +:+ u).
Proof.
  induction s as [|c s IH]; [done|]. by rewrite !app_cons_str, IH.
Qed.

Lemma rstrip_slash_app_slash s : rstrip_slash (s +:+ "/") = rstrip_slash s.
Proof.
  induction s as [|c s IH]; [done|].
  rewrite app_cons_str. simpl. by rewrite IH.
Qed.

Lemma rstrip_slash_no_trailing s s' : rstrip_slash s <> s' +:+ "/".
Proof.
  revert s'. induction s as [|c s IH]; intros s'.
  { simpl. by destruct s'. }
  simpl. destruct (rstrip_slash s) as [|c' r] eqn:Hr.
  - destruct (Ascii.eqb_spec c "/"%char) as [->|Hne].
    + by destruct s'.
    + destruct s' as [|c2 [|c3 s']];
        rewrite ?app_cons_str, ?app_nil_l_str; congruence.
  - destruct s' as [|c2 s']; rewrite ?app_cons_str, ?app_nil_l_str.
    + congruence.
    + intros [= -> H]. by apply (IH s').
Qed.

Lemma rstrip_slash_id s :
  (forall s', s <> s' +:+ "/") -> rstrip_slash s = s.
Proof.
  induction s as [|c s IH]; intros Hend; [done|].
  simpl. destruct s as [|c' s].
  - simpl. destruct (Ascii.eqb_spec c "/"%char) as [->|]; [|done].
    by destruct (Hend "").
  - rewrite IH; [done|]. intros s' Hs'. apply (Hend (String c s')).
    by rewrite app_cons_str, Hs'.
Qed.

Lemma slashes_snoc n : slashes (S n) = slashes n +:+ "/".
Proof.
  induction n as [|n IH]; [done|].
  change (slashes (S (S n))) with (String "/"%char (slashes (S n))).
  rewrite IH at 1. reflexivity.
Qed.

Lemma rstrip_slash_slashes s n :
  rstrip_slash (s +:+ slashes n) = rstrip_slash s.
Proof.
  induction n as [|n IH]; [by rewrite app_nil_r_str|].
  by rewrite slashes_snoc, <- app_assoc_str, rstrip_slash_app_slash.
Qed.

End BaseUrl.

(** X15: the client stores its base URL without trailing slashes, so any
    number of slashes at the end of [base_url] gives the same request
    URLs, the stored value never ends in a slash (no "//api" in a URL),
    and a base URL that does not end in a slash is kept as it is. *)
Theorem base_url_trailing_slashes (base_url path : string) (n : nat) :
  SynAuthClientUrl.init_base_url (base_url +:+ slashes n)
    = SynAuthClientUrl.init_base_url base_url /\
  SynAuthClientUrl.request_url
      (SynAuthClientUrl.init_base_url (base_url +:+ slashes n)) path
    = SynAuthClientUrl.request_url (SynAuthClientUrl.init_base_url base_url)
        path /\
  (forall s', SynAuthClientUrl.init_base_url base_url <> s' +:+ "/") /\
  ((forall s', base_url <> s' +:+ "/") ->
     SynAuthClientUrl.init_base_url base_url = base_url).
Proof.
  unfold SynAuthClientUrl.init_base_url.
  rewrite rstrip_slash_slashes.
  split; [done|]. split; [done|].
  split; [apply rstrip_slash_no_trailing|apply rstrip_slash_id].
Qed.

Lemma base_url_trailing_slashes_witness :
  SynAuthClientUrl.init_base_url "a" = "a".
Proof.
  refine (proj2 (proj2 (proj2 (base_url_trailing_slashes "a" "/actions" 0)))
            _).
  intros s' H. destruct s' as [|c [|c' s']]; discriminate.
Defined.

(** ** How long [wait_for_result] blocks *)

Section Blocking.
Import SynAuthClient.
Variable E : env.
Variable rid : json.
Variables T P L : Q.

Local Arguments wait_loop : simpl never.

Hypothesis HP : (0 < P)%Q.
Hypothesis Hlat : forall m, (0 <= latency E m <= L)%Q.



End Blocking.


